(** * SqliteDb: a reopenable wrapper around an SQLite connection

    Shallow embedding of [sqlitecls.py] (class [SqliteDb]) together with a
    model of the part of Python's [sqlite3] module that the class drives.

    Layout of the development:
    - [Sql]     : lexer and parser of the SQL fragment the wrapper and its
                  callers submit (external collaborator: the SQLite grammar);
    - [Engine]  : databases, sessions and statement execution;
    - [Sqlite3] : the world (files, connections, cursors, call trace) and the
                  Python-level API [connect], [cursor], [execute],
                  [executescript], [fetchone], [close];
    - [SqliteDb]: the class itself, method by method, in a state-and-exception
                  monad over the object and the world;
    - the theorems about the class. *)

From Stdlib Require Import Ascii String ZArith List Bool Lia.
From stdpp Require Import base option list gmap strings.

Open Scope string_scope.
Open Scope list_scope.

(** ** Python values and exceptions *)

Inductive value :=
| VNone
| VInt (z : Z)
| VStr (s : string).

#[global] Instance value_eq_dec : EqDecision value.
Proof. solve_decision. Defined.

Abbreviation row := (list value).

Inductive exn :=
| AttributeError (msg : string)      (* attribute access on [None] *)
| TypeError (msg : string)           (* subscripting [None] *)
| FileNotFoundError (name : string)  (* [open] on a missing file *)
| OperationalError (msg : string)    (* sqlite3.OperationalError *)
| ProgrammingError (msg : string).   (* sqlite3.ProgrammingError *)

#[global] Instance exn_eq_dec : EqDecision exn.
Proof. solve_decision. Defined.

(** Python truthiness of an [Optional[str]]: [None] and the empty string are
    false, every other string is true. *)
Definition truthy_str (o : option string) : bool :=
  match o with
  | None => false
  | Some EmptyString => false
  | Some (String _ _) => true
  end.

(** ** The SQL fragment *)

Module Sql.

Inductive keyword :=
| K_AS | K_BEGIN | K_COMMIT | K_CREATE | K_DELETE | K_DROP | K_END
| K_FROM | K_INDEX | K_INSERT | K_INTO | K_NULL | K_ON | K_PRAGMA
| K_ROLLBACK | K_SELECT | K_TABLE | K_TRANSACTION | K_TRIGGER
| K_VACUUM | K_VALUES | K_VIEW | K_WHERE.

#[global] Instance keyword_eq_dec : EqDecision keyword.
Proof. solve_decision. Defined.

Inductive token :=
| TKw (k : keyword)
| TId (s : string)
| TNum (z : Z)
| TStr (s : string)
| TVar                      (* the bind parameter [?] *)
| TLP | TRP | TComma | TSemi | TEq | TStar | TMinus.

#[global] Instance token_eq_dec : EqDecision token.
Proof. solve_decision. Defined.

(** Keywords are recognised case-insensitively; a word that is not in the
    table is an identifier.  [START] is not a word of SQLite's grammar. *)
Definition keyword_table : list (string * keyword) :=
  [ ("AS", K_AS); ("BEGIN", K_BEGIN); ("COMMIT", K_COMMIT);
    ("CREATE", K_CREATE); ("DELETE", K_DELETE); ("DROP", K_DROP);
    ("END", K_END); ("FROM", K_FROM); ("INDEX", K_INDEX);
    ("INSERT", K_INSERT); ("INTO", K_INTO); ("NULL", K_NULL);
    ("ON", K_ON); ("PRAGMA", K_PRAGMA); ("ROLLBACK", K_ROLLBACK);
    ("SELECT", K_SELECT); ("TABLE", K_TABLE);
    ("TRANSACTION", K_TRANSACTION); ("TRIGGER", K_TRIGGER);
    ("VACUUM", K_VACUUM); ("VALUES", K_VALUES); ("VIEW", K_VIEW);
    ("WHERE", K_WHERE) ].

Definition code (c : ascii) : N := N_of_ascii c.

Definition is_space (c : ascii) : bool :=
  let n := code c in
  (n =? 32)%N || (n =? 9)%N || (n =? 10)%N || (n =? 13)%N.
Definition is_digit (c : ascii) : bool :=
  let n := code c in (48 <=? n)%N && (n <=? 57)%N.
Definition is_lower (c : ascii) : bool :=
  let n := code c in (97 <=? n)%N && (n <=? 122)%N.
Definition is_upper (c : ascii) : bool :=
  let n := code c in (65 <=? n)%N && (n <=? 90)%N.
Definition is_word_start (c : ascii) : bool :=
  is_lower c || is_upper c || (code c =? 95)%N.
Definition is_word_char (c : ascii) : bool :=
  is_word_start c || is_digit c.

Definition upper_char (c : ascii) : ascii :=
  if is_lower c then ascii_of_N (code c - 32) else c.
Fixpoint upper (s : string) : string :=
  match s with
  | EmptyString => EmptyString
  | String c r => String (upper_char c) (upper r)
  end.

Fixpoint assoc {A} (k : string) (l : list (string * A)) : option A :=
  match l with
  | [] => None
  | (k', a) :: r => if String.eqb k k' then Some a else assoc k r
  end.

Definition classify (w : string) : token :=
  match assoc (upper w) keyword_table with
  | Some k => TKw k
  | None => TId w
  end.

Definition digit_val (c : ascii) : Z := Z.of_N (code c - 48).

Definition punct (c : ascii) : option token :=
  let n := code c in
  if (n =? 40)%N then Some TLP
  else if (n =? 41)%N then Some TRP
  else if (n =? 44)%N then Some TComma
  else if (n =? 59)%N then Some TSemi
  else if (n =? 61)%N then Some TEq
  else if (n =? 42)%N then Some TStar
  else if (n =? 45)%N then Some TMinus
  else if (n =? 63)%N then Some TVar
  else None.

Definition is_quote (c : ascii) : bool := (code c =? 39)%N.

(** The lexer is a one-pass automaton over the characters. *)
Inductive lexst :=
| LIdle
| LWord (acc : string)
| LNum (acc : Z)
| LStr (acc : string).

Definition snoc (s : string) (c : ascii) : string := s +:+ String c EmptyString.

Definition flush (st : lexst) : option (list token) :=
  match st with
  | LIdle => Some []
  | LWord w => Some [classify w]
  | LNum n => Some [TNum n]
  | LStr _ => None
  end.

Definition start (c : ascii) : option (lexst * list token) :=
  if is_space c then Some (LIdle, [])
  else if is_word_start c then Some (LWord (String c EmptyString), [])
  else if is_digit c then Some (LNum (digit_val c), [])
  else if is_quote c then Some (LStr EmptyString, [])
  else match punct c with
       | Some t => Some (LIdle, [t])
       | None => None
       end.

Fixpoint lex (st : lexst) (s : string) : option (list token) :=
  match s with
  | EmptyString => flush st
  | String c r =>
      match st with
      | LStr a =>
          if is_quote c then cons (TStr a) <$> lex LIdle r
          else lex (LStr (snoc a c)) r
      | LWord w =>
          if is_word_char c then lex (LWord (snoc w c)) r
          else match start c with
               | Some (st', ts) => (fun l => classify w :: ts ++ l) <$> lex st' r
               | None => None
               end
      | LNum n =>
          if is_digit c then lex (LNum (10 * n + digit_val c)) r
          else match start c with
               | Some (st', ts) => (fun l => TNum n :: ts ++ l) <$> lex st' r
               | None => None
               end
      | LIdle =>
          match start c with
          | Some (st', ts) => (fun l => ts ++ l) <$> lex st' r
          | None => None
          end
      end
  end.

Definition tokenize : string -> option (list token) := lex LIdle.

(** Statements are separated by [;]; empty statements are dropped. *)
Fixpoint split_go (cur : list token) (ts : list token) : list (list token) :=
  match ts with
  | [] => match cur with [] => [] | _ => [rev cur] end
  | TSemi :: r =>
      match cur with
      | [] => split_go [] r
      | _ => rev cur :: split_go [] r
      end
  | t :: r => split_go (t :: cur) r
  end.

Definition split_statements : list token -> list (list token) := split_go [].

(** Abstract syntax. *)
Inductive objtype := OTable | OView | OIndex | OTrigger.

#[global] Instance objtype_eq_dec : EqDecision objtype.
Proof. solve_decision. Defined.

Inductive expr :=
| ENum (z : Z)
| EStr (s : string)
| ENull
| EVar.                    (* a bind parameter, filled in at execution *)

#[global] Instance expr_eq_dec : EqDecision expr.
Proof. solve_decision. Defined.

Inductive projection :=
| PCount                   (* the aggregate counting all rows *)
| PStar                    (* every column *)
| PCol (c : string).

#[global] Instance projection_eq_dec : EqDecision projection.
Proof. solve_decision. Defined.

Record select := {
  sel_proj : projection;
  sel_from : string;
  sel_where : option (string * expr)     (* WHERE col = expr *)
}.

#[global] Instance select_eq_dec : EqDecision select.
Proof. solve_decision. Defined.

Inductive stmt :=
| SBegin
| SCommit
| SRollback
| SVacuum
| SPragmaGet (name : string)
| SPragmaSet (name : string) (v : value)
| SCreateTable (name : string) (cols : list string)
| SCreateView (name : string) (q : select)
| SCreateIndex (name : string) (tbl : string)
| SDrop (ty : objtype) (name : string)
| SInsert (tbl : string) (cols : option (list string)) (vals : list expr)
| SDelete (tbl : string)
| SSelect (q : select).

#[global] Instance stmt_eq_dec : EqDecision stmt.
Proof. solve_decision. Defined.

Definition parse_expr (ts : list token) : option (expr * list token) :=
  match ts with
  | TNum n :: r => Some (ENum n, r)
  | TMinus :: TNum n :: r => Some (ENum (- n), r)
  | TStr s :: r => Some (EStr s, r)
  | TKw K_NULL :: r => Some (ENull, r)
  | TVar :: r => Some (EVar, r)
  | _ => None
  end.

(** [e , e , ... )] up to and including the closing parenthesis. *)
Fixpoint parse_exprs (fuel : nat) (ts : list token) : option (list expr * list token) :=
  match fuel with
  | O => None
  | S fuel =>
      match parse_expr ts with
      | Some (e, TRP :: r) => Some ([e], r)
      | Some (e, TComma :: r) =>
          match parse_exprs fuel r with
          | Some (es, r') => Some (e :: es, r')
          | None => None
          end
      | _ => None
      end
  end.

(** [name , name , ... )]: the column list of an INSERT. *)
Fixpoint parse_names (ts : list token) : option (list string * list token) :=
  match ts with
  | TId c :: TRP :: r => Some ([c], r)
  | TId c :: TComma :: r =>
      match parse_names r with
      | Some (cs, r') => Some (c :: cs, r')
      | None => None
      end
  | _ => None
  end.

(** The type words that may follow a column name in CREATE TABLE. *)
Fixpoint skip_type (ts : list token) : list token :=
  match ts with
  | TId _ :: r => skip_type r
  | _ => ts
  end.

(** [name type* , name type* , ... )]: the column definitions. *)
Fixpoint parse_coldefs (fuel : nat) (ts : list token) : option (list string * list token) :=
  match fuel with
  | O => None
  | S fuel =>
      match ts with
      | TId c :: r =>
          match skip_type r with
          | TRP :: r' => Some ([c], r')
          | TComma :: r' =>
              match parse_coldefs fuel r' with
              | Some (cs, r'') => Some (c :: cs, r'')
              | None => None
              end
          | _ => None
          end
      | _ => None
      end
  end.

Definition parse_projection (ts : list token) : option (projection * list token) :=
  match ts with
  | TId f :: TLP :: TStar :: TRP :: r =>
      if String.eqb (upper f) "COUNT" then Some (PCount, r) else None
  | TStar :: r => Some (PStar, r)
  | TId c :: r => Some (PCol c, r)
  | _ => None
  end.

Definition parse_select (ts : list token) : option select :=
  match parse_projection ts with
  | Some (p, TKw K_FROM :: TId t :: r) =>
      match r with
      | [] => Some {| sel_proj := p; sel_from := t; sel_where := None |}
      | TKw K_WHERE :: TId c :: TEq :: r' =>
          match parse_expr r' with
          | Some (e, []) =>
              Some {| sel_proj := p; sel_from := t; sel_where := Some (c, e) |}
          | _ => None
          end
      | _ => None
      end
  | _ => None
  end.

(** The value of [PRAGMA name = value]: a number, a string, a name or ON. *)
Definition parse_pragma_value (ts : list token) : option value :=
  match ts with
  | [TNum n] => Some (VInt n)
  | [TMinus; TNum n] => Some (VInt (- n))
  | [TStr s] => Some (VStr s)
  | [TId s] => Some (VStr s)
  | [TKw K_ON] => Some (VStr "ON")
  | [TKw K_DELETE] => Some (VStr "DELETE")
  | _ => None
  end.

(** One statement, without its terminating [;].  [None] is SQLite's
    "syntax error". *)
Definition parse (ts : list token) : option stmt :=
  match ts with
  | [TKw K_BEGIN] | [TKw K_BEGIN; TKw K_TRANSACTION] => Some SBegin
  | [TKw K_COMMIT] | [TKw K_COMMIT; TKw K_TRANSACTION]
  | [TKw K_END] | [TKw K_END; TKw K_TRANSACTION] => Some SCommit
  | [TKw K_ROLLBACK] | [TKw K_ROLLBACK; TKw K_TRANSACTION] => Some SRollback
  | [TKw K_VACUUM] => Some SVacuum
  | [TKw K_PRAGMA; TId n] => Some (SPragmaGet n)
  | TKw K_PRAGMA :: TId n :: TEq :: r => SPragmaSet n <$> parse_pragma_value r
  | TKw K_CREATE :: TKw K_TABLE :: TId n :: TLP :: r =>
      match parse_coldefs (length r) r with
      | Some (cs, []) => Some (SCreateTable n cs)
      | _ => None
      end
  | TKw K_CREATE :: TKw K_VIEW :: TId n :: TKw K_AS :: TKw K_SELECT :: r =>
      SCreateView n <$> parse_select r
  | TKw K_CREATE :: TKw K_INDEX :: TId n :: TKw K_ON :: TId t :: TLP :: r =>
      match parse_names r with
      | Some (_, []) => Some (SCreateIndex n t)
      | _ => None
      end
  | [TKw K_DROP; TKw K_TABLE; TId n] => Some (SDrop OTable n)
  | [TKw K_DROP; TKw K_VIEW; TId n] => Some (SDrop OView n)
  | [TKw K_DROP; TKw K_INDEX; TId n] => Some (SDrop OIndex n)
  | TKw K_INSERT :: TKw K_INTO :: TId t :: TKw K_VALUES :: TLP :: r =>
      match parse_exprs (length r) r with
      | Some (es, []) => Some (SInsert t None es)
      | _ => None
      end
  | TKw K_INSERT :: TKw K_INTO :: TId t :: TLP :: r =>
      match parse_names r with
      | Some (cs, TKw K_VALUES :: TLP :: r') =>
          match parse_exprs (length r') r' with
          | Some (es, []) => Some (SInsert t (Some cs) es)
          | _ => None
          end
      | _ => None
      end
  | [TKw K_DELETE; TKw K_FROM; TId t] => Some (SDelete t)
  | TKw K_SELECT :: r => SSelect <$> parse_select r
  | _ => None
  end.

(** Number of bind parameters of a statement. *)
Definition expr_vars (e : expr) : nat :=
  match e with EVar => 1 | _ => 0 end.

Definition select_vars (q : select) : nat :=
  match sel_where q with
  | Some (_, e) => expr_vars e
  | None => 0
  end.

Definition stmt_vars (s : stmt) : nat :=
  match s with
  | SInsert _ _ es => list_sum (map expr_vars es)
  | SSelect q | SCreateView _ q => select_vars q
  | _ => 0
  end.

End Sql.

(** ** Databases and statement execution *)

Module Engine.
Import Sql.

(** One row of the catalog [sqlite_master], with the rows of the object
    when it is a table. *)
Record entry := {
  e_type : objtype;
  e_name : string;
  e_tbl : string;            (* column [tbl_name] *)
  e_cols : list string;
  e_rows : list row
}.

(** A database is its catalog, in creation order. *)
Abbreviation database := (list entry).

Definition type_name (t : objtype) : string :=
  match t with
  | OTable => "table"
  | OView => "view"
  | OIndex => "index"
  | OTrigger => "trigger"
  end.

Definition is_table (e : entry) : bool :=
  match e_type e with OTable => true | _ => false end.

(** The number the catalog query of the wrapper asks for. *)
Definition count_tables (db : database) : nat :=
  length (List.filter is_table db).

Definition master_cols : list string := ["type"; "name"; "tbl_name"].

Definition master_row (e : entry) : row :=
  [VStr (type_name (e_type e)); VStr (e_name e); VStr (e_tbl e)].

Fixpoint find_entry (n : string) (db : database) : option entry :=
  match db with
  | [] => None
  | e :: r => if String.eqb (e_name e) n then Some e else find_entry n r
  end.

Definition exists_name (n : string) (db : database) : bool :=
  String.eqb n "sqlite_master" ||
  match find_entry n db with Some _ => true | None => false end.

Definition find_table (n : string) (db : database) : option entry :=
  match find_entry n db with
  | Some e => if is_table e then Some e else None
  | None => None
  end.

(** The relation a FROM clause names: the catalog or a table. *)
Definition relation_of (db : database) (t : string) : option (list string * list row) :=
  if String.eqb t "sqlite_master" then Some (master_cols, map master_row db)
  else match find_table t db with
       | Some e => Some (e_cols e, e_rows e)
       | None => None
       end.

Fixpoint col_index (c : string) (cols : list string) : option nat :=
  match cols with
  | [] => None
  | c' :: r => if String.eqb c c' then Some 0 else S <$> col_index c r
  end.

Definition cell (i : nat) (r : row) : value := default VNone (r !! i).

(** Bind parameters are consumed from left to right. *)
Definition bind_expr (e : expr) (ps : list value) : value * list value :=
  match e with
  | ENum z => (VInt z, ps)
  | EStr s => (VStr s, ps)
  | ENull => (VNone, ps)
  | EVar => match ps with
            | p :: r => (p, r)
            | [] => (VNone, [])
            end
  end.

Fixpoint bind_exprs (es : list expr) (ps : list value) : list value :=
  match es with
  | [] => []
  | e :: r => let '(v, ps') := bind_expr e ps in v :: bind_exprs r ps'
  end.

Definition value_eqb (a b : value) : bool := bool_decide (a = b).

Definition run_select (db : database) (q : select) (ps : list value)
  : exn + list row :=
  match relation_of db (sel_from q) with
  | None => inl (OperationalError ("no such table: " +:+ sel_from q))
  | Some (cols, rows) =>
      let filtered :=
        match sel_where q with
        | None => inr rows
        | Some (c, e) =>
            match col_index c cols with
            | None => inl (OperationalError ("no such column: " +:+ c))
            | Some i =>
                let v := fst (bind_expr e ps) in
                inr (List.filter (fun r => value_eqb (cell i r) v) rows)
            end
        end in
      match filtered with
      | inl err => inl err
      | inr rs =>
          match sel_proj q with
          | PCount => inr [[VInt (Z.of_nat (length rs))]]
          | PStar => inr rs
          | PCol c =>
              match col_index c cols with
              | None => inl (OperationalError ("no such column: " +:+ c))
              | Some i => inr (map (fun r => [cell i r]) rs)
              end
          end
      end
  end.

(** The row an INSERT builds for a table with columns [cols]. *)
Definition insert_row (cols : list string) (given : option (list string))
    (vs : list value) : option row :=
  match given with
  | None => if Nat.eqb (length vs) (length cols) then Some vs else None
  | Some cs =>
      if Nat.eqb (length vs) (length cs)
         && forallb (fun c => bool_decide (is_Some (col_index c cols))) cs
      then Some (map (fun c => match col_index c cs with
                               | Some i => cell i vs
                               | None => VNone
                               end) cols)
      else None
  end.

Fixpoint add_row (t : string) (r : row) (db : database) : database :=
  match db with
  | [] => []
  | e :: rest =>
      if String.eqb (e_name e) t
      then {| e_type := e_type e; e_name := e_name e; e_tbl := e_tbl e;
              e_cols := e_cols e; e_rows := e_rows e ++ [r] |} :: rest
      else e :: add_row t r rest
  end.

Fixpoint clear_rows (t : string) (db : database) : database :=
  match db with
  | [] => []
  | e :: rest =>
      if String.eqb (e_name e) t
      then {| e_type := e_type e; e_name := e_name e; e_tbl := e_tbl e;
              e_cols := e_cols e; e_rows := [] |} :: rest
      else e :: clear_rows t rest
  end.

(** Dropping a table takes its indexes with it; dropping anything else
    removes the one entry. *)
Definition drop_object (ty : objtype) (n : string) (db : database) : database :=
  match ty with
  | OTable => List.filter (fun e => negb (String.eqb (e_tbl e) n)) db
  | _ => List.filter (fun e => negb (String.eqb (e_name e) n)) db
  end.

(** A session: the committed database, the working copy of the open
    transaction when there is one, and the connection's settings. *)
Record session := {
  s_disk : database;
  s_txn : option database;
  s_pragmas : list (string * value)
}.

Definition current (σ : session) : database := default (s_disk σ) (s_txn σ).

(** Outside a transaction SQLite is in autocommit mode: a change goes
    straight to the committed database. *)
Definition write (σ : session) (db : database) : session :=
  match s_txn σ with
  | Some _ => {| s_disk := s_disk σ; s_txn := Some db; s_pragmas := s_pragmas σ |}
  | None => {| s_disk := db; s_txn := None; s_pragmas := s_pragmas σ |}
  end.

Definition default_pragmas : list (string * value) :=
  [ ("journal_mode", VStr "delete"); ("cache_size", VInt (-2000));
    ("synchronous", VInt 2); ("temp_store", VInt 0);
    ("encoding", VStr "UTF-8"); ("foreign_keys", VInt 0) ].

Fixpoint set_pragma (n : string) (v : value) (l : list (string * value))
  : list (string * value) :=
  match l with
  | [] => []
  | (k, old) :: r =>
      if String.eqb n k then (k, v) :: r else (k, old) :: set_pragma n v r
  end.

Definition failed {A} (msg : string) : exn + A := inl (OperationalError msg).

(** Execution of one statement.  A statement that fails leaves the session
    as it was.  The session is all a statement sees here: what the engine
    refuses because another statement of the connection is in progress
    (VACUUM, for one) is not refused here, and the properties of [vacuum]
    and of scripts below assume no such statement. *)
Definition exec (s : stmt) (ps : list value) (σ : session)
  : exn + (session * list row) :=
  let db := current σ in
  match s with
  | SBegin =>
      match s_txn σ with
      | Some _ => failed "cannot start a transaction within a transaction"
      | None => inr ({| s_disk := s_disk σ; s_txn := Some (s_disk σ);
                        s_pragmas := s_pragmas σ |}, [])
      end
  | SCommit =>
      match s_txn σ with
      | Some d => inr ({| s_disk := d; s_txn := None;
                          s_pragmas := s_pragmas σ |}, [])
      | None => failed "cannot commit - no transaction is active"
      end
  | SRollback =>
      match s_txn σ with
      | Some _ => inr ({| s_disk := s_disk σ; s_txn := None;
                          s_pragmas := s_pragmas σ |}, [])
      | None => failed "cannot rollback - no transaction is active"
      end
  | SVacuum =>
      match s_txn σ with
      | Some _ => failed "cannot VACUUM from within a transaction"
      | None => inr (σ, [])
      end
  | SPragmaGet n =>
      match assoc n (s_pragmas σ) with
      | Some v => inr (σ, [[v]])
      | None => inr (σ, [])
      end
  | SPragmaSet n v =>
      inr ({| s_disk := s_disk σ; s_txn := s_txn σ;
              s_pragmas := set_pragma n v (s_pragmas σ) |}, [])
  | SCreateTable n cols =>
      if exists_name n db then failed ("table " +:+ n +:+ " already exists")
      else inr (write σ (db ++ [{| e_type := OTable; e_name := n; e_tbl := n;
                                   e_cols := cols; e_rows := [] |}]), [])
  | SCreateView n q =>
      if exists_name n db then failed ("view " +:+ n +:+ " already exists")
      else inr (write σ (db ++ [{| e_type := OView; e_name := n; e_tbl := n;
                                   e_cols := []; e_rows := [] |}]), [])
  | SCreateIndex n t =>
      if exists_name n db then failed ("index " +:+ n +:+ " already exists")
      else match find_table t db with
           | None => failed ("no such table: " +:+ t)
           | Some _ =>
               inr (write σ (db ++ [{| e_type := OIndex; e_name := n; e_tbl := t;
                                       e_cols := []; e_rows := [] |}]), [])
           end
  | SDrop ty n =>
      match find_entry n db with
      | Some e =>
          if bool_decide (e_type e = ty) then inr (write σ (drop_object ty n db), [])
          else failed ("no such " +:+ type_name ty +:+ ": " +:+ n)
      | None => failed ("no such " +:+ type_name ty +:+ ": " +:+ n)
      end
  | SInsert t given es =>
      match find_table t db with
      | None => failed ("no such table: " +:+ t)
      | Some e =>
          match insert_row (e_cols e) given (bind_exprs es ps) with
          | Some r => inr (write σ (add_row t r db), [])
          | None => failed ("table " +:+ t +:+ ": columns and values do not match")
          end
      end
  | SDelete t =>
      match find_table t db with
      | None => failed ("no such table: " +:+ t)
      | Some _ => inr (write σ (clear_rows t db), [])
      end
  | SSelect q =>
      match run_select db q ps with
      | inl err => inl err
      | inr rs => inr (σ, rs)
      end
  end.

(** The statements before which Python's [sqlite3] opens a transaction
    implicitly (the module's default isolation level). *)
Definition is_dml (s : stmt) : bool :=
  match s with
  | SInsert _ _ _ | SDelete _ => true
  | _ => false
  end.

Definition begin_if_needed (s : stmt) (σ : session) : session :=
  match s_txn σ with
  | None => if is_dml s
            then {| s_disk := s_disk σ; s_txn := Some (s_disk σ);
                    s_pragmas := s_pragmas σ |}
            else σ
  | Some _ => σ
  end.

(** A script: the statements run one after the other in autocommit mode;
    the first failure stops the run, and what ran before it stays. *)
Fixpoint exec_script (ss : list (list token)) (σ : session) : option exn * session :=
  match ss with
  | [] => (None, σ)
  | ts :: r =>
      match parse ts with
      | None => (Some (OperationalError "syntax error"), σ)
      | Some s =>
          match exec s [] σ with
          | inl err => (Some err, σ)
          | inr (σ', _) => exec_script r σ'
          end
      end
  end.

End Engine.

(** ** A state-and-exception monad

    A Python method mutates objects and may raise; the mutations made before
    the exception stay.  A computation therefore returns its outcome together
    with the state it leaves, also when it raises. *)

Inductive outcome (A : Type) :=
| Ret (a : A)
| Raise (e : exn).
Arguments Ret {A} a.
Arguments Raise {A} e.

Definition M (S A : Type) : Type := S -> outcome A * S.

Definition ret {S A} (a : A) : M S A := fun s => (Ret a, s).
Definition raise {S A} (e : exn) : M S A := fun s => (Raise e, s).
Definition bind {S A B} (m : M S A) (k : A -> M S B) : M S B :=
  fun s => match m s with
           | (Ret a, s') => k a s'
           | (Raise e, s') => (Raise e, s')
           end.
Definition gets {S A} (f : S -> A) : M S A := fun s => (Ret (f s), s).
Definition modify {S} (f : S -> S) : M S unit := fun s => (Ret tt, f s).

Declare Scope py_scope.
Delimit Scope py_scope with py.
Notation "x <~ m ;; k" := (bind m (fun x => k))
  (at level 100, m at next level, right associativity) : py_scope.
Notation "m ;;; k" := (bind m (fun _ => k))
  (at level 100, right associativity) : py_scope.
Open Scope py_scope.

(** ** Python's [sqlite3] module, as far as the class uses it *)

Module Sqlite3.
Import Sql Engine.

Record Connection := {
  c_name : string;                      (* the path given to [connect] *)
  c_open : bool;
  c_mem : database;                     (* contents, for [":memory:"] *)
  c_txn : option database;              (* working copy of the open transaction *)
  c_pragmas : list (string * value)
}.

(** [cu_rows] are the rows of the statement in progress that are not fetched
    yet, as the statement finds them when it is executed.  The engine
    produces them one step at a time; the two agree as long as nothing is
    written on the connection while rows are waiting, and the properties
    below do not speak of rows that waited across a write. *)
Record Cursor := {
  cu_conn : nat;                        (* the connection it belongs to *)
  cu_open : bool;
  cu_rows : list row                    (* result rows not fetched yet *)
}.

(** The calls made into the module, in order. *)
Inductive event :=
| EvConnect (name : string)
| EvCursor (k : nat)
| EvExecute (c : nat) (sql : string) (params : list value)
| EvExecuteScript (c : nat) (text : string)
| EvFetchone (c : nat)
| EvCursorClose (c : nat)
| EvConnectionClose (k : nat)
| EvOpenFile (name : string).

#[global] Instance event_eq_dec : EqDecision event.
Proof. solve_decision. Defined.

(** Everything outside the object: the database files, the text files, the
    paths that cannot be opened as a database, the connections and cursors
    ever created (an object's identity is its index) and the call trace. *)
Record World := {
  w_files : gmap string database;
  w_texts : gmap string string;
  w_denied : gset string;
  w_conns : list Connection;
  w_cursors : list Cursor;
  w_log : list event
}.

Definition set_files (f : gmap string database) (w : World) : World :=
  {| w_files := f; w_texts := w_texts w; w_denied := w_denied w;
     w_conns := w_conns w; w_cursors := w_cursors w; w_log := w_log w |}.
Definition set_conns (l : list Connection) (w : World) : World :=
  {| w_files := w_files w; w_texts := w_texts w; w_denied := w_denied w;
     w_conns := l; w_cursors := w_cursors w; w_log := w_log w |}.
Definition set_cursors (l : list Cursor) (w : World) : World :=
  {| w_files := w_files w; w_texts := w_texts w; w_denied := w_denied w;
     w_conns := w_conns w; w_cursors := l; w_log := w_log w |}.
Definition record (e : event) (w : World) : World :=
  {| w_files := w_files w; w_texts := w_texts w; w_denied := w_denied w;
     w_conns := w_conns w; w_cursors := w_cursors w; w_log := w_log w ++ [e] |}.

(** The names that stand for a transient database, private to the
    connection and gone when it is closed: [":memory:"], and the empty
    name, for which SQLite opens a private temporary database. *)
Definition in_memory (name : string) : bool :=
  String.eqb name ":memory:" || String.eqb name "".

(** The committed contents a connection sees. *)
Definition disk_of (w : World) (k : Connection) : database :=
  if in_memory (c_name k) then c_mem k
  else default [] (w_files w !! c_name k).

Definition load (w : World) (k : Connection) : session :=
  {| s_disk := disk_of w k; s_txn := c_txn k; s_pragmas := c_pragmas k |}.

Definition store (kid : nat) (k : Connection) (σ : session) (w : World) : World :=
  let k' := {| c_name := c_name k; c_open := c_open k;
               c_mem := if in_memory (c_name k) then s_disk σ else c_mem k;
               c_txn := s_txn σ; c_pragmas := s_pragmas σ |} in
  let w' := set_conns (<[kid := k']> (w_conns w)) w in
  if in_memory (c_name k) then w'
  else set_files (<[c_name k := s_disk σ]> (w_files w)) w'.

(** [sqlite3.connect(name)]: opens the file, creating it empty when it does
    not exist. *)
Definition connect (name : string) : M World nat :=
  modify (record (EvConnect name)) ;;;
  denied <~ gets (fun w => bool_decide (name ∈ w_denied w)) ;;
  if denied : bool then raise (OperationalError "unable to open database file")
  else
    kid <~ gets (fun w => length (w_conns w)) ;;
    modify (fun w =>
      let w' := set_conns (w_conns w ++
                  [{| c_name := name; c_open := true; c_mem := [];
                      c_txn := None; c_pragmas := default_pragmas |}]) w in
      if in_memory name then w'
      else match w_files w !! name with
           | Some _ => w'
           | None => set_files (<[name := []]> (w_files w)) w'
           end) ;;;
    ret kid.

Definition the_connection (kid : nat) : M World Connection :=
  o <~ gets (fun w => w_conns w !! kid) ;;
  match o with
  | Some k =>
      if c_open k then ret k
      else raise (ProgrammingError "Cannot operate on a closed database.")
  | None => raise (ProgrammingError "Cannot operate on a closed database.")
  end.

Definition the_cursor (cid : nat) : M World Cursor :=
  o <~ gets (fun w => w_cursors w !! cid) ;;
  match o with
  | Some c =>
      if cu_open c then ret c
      else raise (ProgrammingError "Cannot operate on a closed cursor.")
  | None => raise (ProgrammingError "Cannot operate on a closed cursor.")
  end.

(** [connection.cursor()] *)
Definition Connection_cursor (kid : nat) : M World nat :=
  modify (record (EvCursor kid)) ;;;
  the_connection kid ;;;
  cid <~ gets (fun w => length (w_cursors w)) ;;
  modify (fun w => set_cursors (w_cursors w ++
            [{| cu_conn := kid; cu_open := true; cu_rows := [] |}]) w) ;;;
  ret cid.

Definition set_rows (cid : nat) (c : Cursor) (rs : list row) : M World unit :=
  modify (fun w => set_cursors
            (<[cid := {| cu_conn := cu_conn c; cu_open := cu_open c;
                         cu_rows := rs |}]> (w_cursors w)) w).

(** What [execute] does with the text once the cursor and its connection
    are known to be usable. *)
Definition prepare (sql : string) (params : list value) : exn + option stmt :=
  match tokenize sql with
  | None => inl (OperationalError "unrecognized token")
  | Some ts =>
      match split_statements ts with
      | [] => inr None
      | [one] =>
          match parse one with
          | None => inl (OperationalError "syntax error")
          | Some s =>
              if Nat.eqb (stmt_vars s) (length params) then inr (Some s)
              else inl (ProgrammingError "Incorrect number of bindings supplied.")
          end
      | _ => inl (ProgrammingError "You can only execute one statement at a time.")
      end
  end.

(** [cursor.execute(sql, params)]; the result is the cursor itself. *)
Definition Cursor_execute (cid : nat) (sql : string) (params : list value)
  : M World nat :=
  modify (record (EvExecute cid sql params)) ;;;
  c <~ the_cursor cid ;;
  k <~ the_connection (cu_conn c) ;;
  match prepare sql params with
  | inl err => raise err
  | inr None => set_rows cid c [] ;;; ret cid
  | inr (Some s) =>
      σ <~ gets (fun w => begin_if_needed s (load w k)) ;;
      match exec s params σ with
      | inl err => raise err
      | inr (σ', rs) =>
          modify (store (cu_conn c) k σ') ;;;
          set_rows cid c rs ;;;
          ret cid
      end
  end.

(** [cursor.executescript(text)]: commits a pending transaction, then runs
    the statements of the text. *)
Definition Cursor_executescript (cid : nat) (text : string) : M World nat :=
  modify (record (EvExecuteScript cid text)) ;;;
  c <~ the_cursor cid ;;
  k <~ the_connection (cu_conn c) ;;
  σ <~ gets (fun w =>
         let σ := load w k in
         match s_txn σ with
         | Some d => {| s_disk := d; s_txn := None; s_pragmas := s_pragmas σ |}
         | None => σ
         end) ;;
  match tokenize text with
  | None => modify (store (cu_conn c) k σ) ;;;
            raise (OperationalError "unrecognized token")
  | Some ts =>
      match exec_script (split_statements ts) σ with
      | (Some err, σ') => modify (store (cu_conn c) k σ') ;;; raise err
      | (None, σ') => modify (store (cu_conn c) k σ') ;;; ret cid
      end
  end.

(** [cursor.fetchone()]: the next row, or [None]. *)
Definition Cursor_fetchone (cid : nat) : M World (option row) :=
  modify (record (EvFetchone cid)) ;;;
  c <~ the_cursor cid ;;
  the_connection (cu_conn c) ;;;
  match cu_rows c with
  | [] => ret None
  | r :: rest => set_rows cid c rest ;;; ret (Some r)
  end.

(** Iterating over the cursor (or [cursor.fetchall()]): all remaining rows. *)
Definition Cursor_fetchall (cid : nat) : M World (list row) :=
  c <~ the_cursor cid ;;
  the_connection (cu_conn c) ;;;
  set_rows cid c [] ;;;
  ret (cu_rows c).

(** [cursor.close()]: closing a closed cursor is allowed, but the connection
    of the cursor must be open, as for every other call on a cursor. *)
Definition Cursor_close (cid : nat) : M World unit :=
  modify (record (EvCursorClose cid)) ;;;
  o <~ gets (fun w => w_cursors w !! cid) ;;
  match o with
  | Some c =>
      the_connection (cu_conn c) ;;;
      modify (fun w =>
        set_cursors (<[cid := {| cu_conn := cu_conn c; cu_open := false;
                                 cu_rows := [] |}]> (w_cursors w)) w)
  | None => ret tt
  end.

(** [connection.close()]: an uncommitted transaction is lost; closing a
    closed connection is allowed. *)
Definition Connection_close (kid : nat) : M World unit :=
  modify (record (EvConnectionClose kid)) ;;;
  modify (fun w =>
    match w_conns w !! kid with
    | Some k => set_conns (<[kid := {| c_name := c_name k; c_open := false;
                                       c_mem := c_mem k; c_txn := None;
                                       c_pragmas := c_pragmas k |}]> (w_conns w)) w
    | None => w
    end).

(** [open(name).read()] of a text file. *)
Definition read_file (name : string) : M World string :=
  modify (record (EvOpenFile name)) ;;;
  o <~ gets (fun w => w_texts w !! name) ;;
  match o with
  | Some text => ret text
  | None => raise (FileNotFoundError name)
  end.

End Sqlite3.

(** ** The class [SqliteDb] *)

Import Sqlite3.

Record SqliteDb := {
  db_file_name : string;
  init_script_file_name : option string;
  connection : option nat;       (* Optional[sqlite3.Connection] *)
  cursor : option nat            (* Optional[sqlite3.Cursor] *)
}.

(** The object a method runs on, and the world around it. *)
Record state := {
  self : SqliteDb;
  world : World
}.

Definition lift {A} (m : M World A) : M state A :=
  fun s => let '(r, w) := m (world s) in (r, {| self := self s; world := w |}).

Definition set_connection (v : option nat) : M state unit :=
  modify (fun s =>
    {| self := {| db_file_name := db_file_name (self s);
                  init_script_file_name := init_script_file_name (self s);
                  connection := v; cursor := cursor (self s) |};
       world := world s |}).

Definition set_cursor (v : option nat) : M state unit :=
  modify (fun s =>
    {| self := {| db_file_name := db_file_name (self s);
                  init_script_file_name := init_script_file_name (self s);
                  connection := connection (self s); cursor := v |};
       world := world s |}).

(** Attribute access [obj.attr] where [obj] may be [None]. *)
Definition attr {S} (obj : option nat) (name : string) : M S nat :=
  match obj with
  | Some o => ret o
  | None => raise (AttributeError
                     ("'NoneType' object has no attribute '" +:+ name +:+ "'"))
  end.

(** Subscript [r[0]] of what [fetchone] returned. *)
Definition item0 {S} (r : option row) : M S value :=
  match r with
  | None => raise (TypeError "'NoneType' object is not subscriptable")
  | Some [] => raise (TypeError "tuple index out of range")
  | Some (v :: _) => ret v
  end.

(** The class-level constants. *)
Definition Q_COUNT_TABLES : string :=
  "SELECT count(*) FROM sqlite_master WHERE type='table'".
Definition Q_TABLES : string :=
  "SELECT name FROM sqlite_master WHERE type='table'".
Definition Q_START : string := "START TRANSACTION".
Definition Q_ROLLBACK : string := "ROLLBACK".
Definition Q_COMMIT : string := "COMMIT".
Definition Q_VACUUM : string := "VACUUM".
Definition PRAGMAS : string :=
  " " +:+
  "" +:+
  "PRAGMA journal_mode = WAL; " +:+
  "PRAGMA cache_size = -100000; " +:+
  "PRAGMA synchronous = EXTRA; " +:+
  "PRAGMA temp_store = memory; ".
Definition PRAGMAS_PER_CONNECTION : string :=
  "PRAGMA encoding = 'UTF-8'; " +:+
  "PRAGMA foreign_keys = ON; ".
Definition PRAGMAS_PER_DB : string := "".
Definition PRAGMAS_HARD_CONSISTENCY : string := "".

(** [__init__]: four assignments. *)
Definition __init__ (db_file_name : string)
    (init_script_file_name : option string) : SqliteDb :=
  {| db_file_name := db_file_name;
     init_script_file_name := init_script_file_name;
     connection := None;
     cursor := None |}.

(** [execute_file]: reads the whole file and hands it to [executescript]. *)
Definition execute_file (file_name : string) : M state nat :=
  script <~ lift (read_file file_name) ;;
  obj <~ gets (fun s => cursor (self s)) ;;
  c <~ attr obj "executescript" ;;
  lift (Cursor_executescript c script).

(** [is_empty_db]:
    [self.cursor.execute(self.Q_COUNT_TABLES).fetchone()[0] == 0] *)
Definition is_empty_db : M state bool :=
  obj <~ gets (fun s => cursor (self s)) ;;
  c <~ attr obj "execute" ;;
  c' <~ lift (Cursor_execute c Q_COUNT_TABLES []) ;;
  r <~ lift (Cursor_fetchone c') ;;
  v <~ item0 r ;;
  ret (bool_decide (v = VInt 0)).

(** [__enter__]: connect, take a cursor, and run the init script when one is
    given and the database has no table.  [and] evaluates its right operand
    only when the left one is true. *)
Definition __enter__ : M state unit :=
  name <~ gets (fun s => db_file_name (self s)) ;;
  k <~ lift (connect name) ;;
  set_connection (Some k) ;;;
  obj <~ gets (fun s => connection (self s)) ;;
  k' <~ attr obj "cursor" ;;
  c <~ lift (Connection_cursor k') ;;
  set_cursor (Some c) ;;;
  script <~ gets (fun s => init_script_file_name (self s)) ;;
  if truthy_str script then
    empty <~ is_empty_db ;;
    if empty : bool then
      execute_file (default "" script) ;;; ret tt
    else ret tt
  else ret tt.

(** [__exit__]: close and forget the cursor, then the connection, each only
    when it is set. *)
Definition __exit__ : M state unit :=
  cur <~ gets (fun s => cursor (self s)) ;;
  match cur with
  | Some c => lift (Cursor_close c) ;;; set_cursor None
  | None => ret tt
  end ;;;
  con <~ gets (fun s => connection (self s)) ;;
  match con with
  | Some k => lift (Connection_close k) ;;; set_connection None
  | None => ret tt
  end.

(** [__getitem__]: [self.cursor.execute('PRAGMA ?', (item,)).fetchone()[0]] *)
Definition __getitem__ (item : string) : M state value :=
  obj <~ gets (fun s => cursor (self s)) ;;
  c <~ attr obj "execute" ;;
  c' <~ lift (Cursor_execute c "PRAGMA ?" [VStr item]) ;;
  r <~ lift (Cursor_fetchone c') ;;
  item0 r.

(** [__setitem__]: [self.cursor.execute('PRAGMA ? = ?', (key, value))] *)
Definition __setitem__ (key : string) (v : value) : M state unit :=
  obj <~ gets (fun s => cursor (self s)) ;;
  c <~ attr obj "execute" ;;
  lift (Cursor_execute c "PRAGMA ? = ?" [VStr key; v]) ;;;
  ret tt.

(** [start_transaction], [rollback], [commit] and [vacuum] are the same
    one-liner, [self.cursor.execute(self.Q_...)], on four constants. *)
Definition run_query (sql : string) : M state unit :=
  obj <~ gets (fun s => cursor (self s)) ;;
  c <~ attr obj "execute" ;;
  lift (Cursor_execute c sql []) ;;;
  ret tt.

Definition start_transaction : M state unit := run_query Q_START.
Definition rollback : M state unit := run_query Q_ROLLBACK.
Definition commit : M state unit := run_query Q_COMMIT.
Definition vacuum : M state unit := run_query Q_VACUUM.

(** [tables_names]: the first column of every row of the catalog query. *)
Definition tables_names : M state (list value) :=
  obj <~ gets (fun s => cursor (self s)) ;;
  c <~ attr obj "execute" ;;
  c' <~ lift (Cursor_execute c Q_TABLES []) ;;
  rows <~ lift (Cursor_fetchall c') ;;
  ret (map (Engine.cell 0) rows).

(** ** Observations on a state *)

Import Sql Engine.

Definition conn_is_open (w : World) (k : nat) : bool :=
  match w_conns w !! k with
  | Some kc => c_open kc
  | None => false
  end.

Definition cursor_is_usable (w : World) (k c : nat) : bool :=
  match w_cursors w !! c with
  | Some cc => cu_open cc && Nat.eqb (cu_conn cc) k
  | None => false
  end.

(** The handle is open: it holds a connection that is open in the engine and
    an open cursor of that connection. *)
Definition handle_open (s : state) : bool :=
  match connection (self s), cursor (self s) with
  | Some k, Some c => conn_is_open (world s) k && cursor_is_usable (world s) k c
  | _, _ => false
  end.

(** The handle is closed: both fields are [None]. *)
Definition handle_closed (s : state) : bool :=
  match connection (self s), cursor (self s) with
  | None, None => true
  | _, _ => false
  end.

(** The database a connection sees: its transaction's working copy, or the
    committed contents. *)
Definition seen (w : World) (k : nat) : database :=
  match w_conns w !! k with
  | Some kc => current (load w kc)
  | None => []
  end.

Definition visible (s : state) : database :=
  match connection (self s) with
  | Some k => seen (world s) k
  | None => []
  end.

(** The committed contents a new connection to [f] finds. *)
Definition disk (w : World) (f : string) : database :=
  if in_memory f then [] else default [] (w_files w !! f).

(** The session of a connection that was just opened on [f]. *)
Definition fresh_session (w : World) (f : string) : session :=
  {| s_disk := disk w f; s_txn := None; s_pragmas := default_pragmas |}.

(** The calls made between two worlds. *)
Definition added (w w' : World) : list event :=
  drop (length (w_log w)) (w_log w').

Definition is_script_run (e : event) : bool :=
  match e with EvExecuteScript _ _ => true | _ => false end.

Definition is_connection_close (e : event) : bool :=
  match e with EvConnectionClose _ => true | _ => false end.

(** The SQL texts a trace hands to the engine. *)
Definition sql_of (e : event) : list string :=
  match e with
  | EvExecute _ sql _ => [sql]
  | EvExecuteScript _ text => [text]
  | _ => []
  end.

Definition sql_received (evs : list event) : list string :=
  concat (map sql_of evs).

(** The statements of a text, as the engine reads them. *)
Definition statements_of (text : string) : list stmt :=
  match tokenize text with
  | Some ts => omap parse (split_statements ts)
  | None => []
  end.

Definition statements_received (evs : list event) : list stmt :=
  concat (map statements_of (sql_received evs)).

(** The six pragma statements of the configuration table. *)
Definition recognized_pragmas : list stmt :=
  [ SPragmaSet "journal_mode" (VStr "WAL");
    SPragmaSet "cache_size" (VInt (-100000));
    SPragmaSet "synchronous" (VStr "EXTRA");
    SPragmaSet "temp_store" (VStr "memory");
    SPragmaSet "encoding" (VStr "UTF-8");
    SPragmaSet "foreign_keys" (VStr "ON") ].

(** What running a whole script does to a session: a pending transaction is
    committed, then the statements run. *)
Definition committed (σ : session) : session :=
  match s_txn σ with
  | Some d => {| s_disk := d; s_txn := None; s_pragmas := s_pragmas σ |}
  | None => σ
  end.

Definition script_on (text : string) (σ : session) : option exn * session :=
  match tokenize text with
  | None => (Some (OperationalError "unrecognized token"), committed σ)
  | Some ts => exec_script (split_statements ts) (committed σ)
  end.

(** What one [execute] does to a session and to the rows of the cursor. *)
Definition execute_on (sql : string) (ps : list value) (σ : session) (rs : list row)
  : option exn * session * list row :=
  match prepare sql ps with
  | inl err => (Some err, σ, rs)
  | inr None => (None, σ, [])
  | inr (Some st) =>
      match exec st ps (begin_if_needed st σ) with
      | inl err => (Some err, σ, rs)
      | inr (σ', rs') => (None, σ', rs')
      end
  end.

(** The events [__enter__] adds when the connection can be made: the
    catalog query only with a script configured, the script only on a
    database without tables. *)
Definition enter_events (s : state) : list event :=
  let w := world s in
  let f := db_file_name (self s) in
  let k := length (w_conns w) in
  let c := length (w_cursors w) in
  let script := init_script_file_name (self s) in
  [EvConnect f; EvCursor k] ++
  if truthy_str script then
    [EvExecute c Q_COUNT_TABLES []; EvFetchone c] ++
    if bool_decide (count_tables (disk w f) = 0) then
      [EvOpenFile (default "" script)] ++
      match w_texts w !! default "" script with
      | Some text => [EvExecuteScript c text]
      | None => []
      end
    else []
  else [].

(** Sequences of open and close operations on one handle; a caller that
    catches an exception goes on with the object as the failed call left
    it. *)
Inductive op := OpEnter | OpExit.

Definition run_op (o : op) (s : state) : state :=
  match o with
  | OpEnter => snd (__enter__ s)
  | OpExit => snd (__exit__ s)
  end.

Definition run_ops (ops : list op) (s : state) : state :=
  fold_left (fun s o => run_op o s) ops s.

Fixpoint repeat_exit (n : nat) (s : state) : outcome unit * state :=
  match n with
  | O => (Ret tt, s)
  | S n => match __exit__ s with
           | (Ret _, s') => repeat_exit n s'
           | (Raise e, s') => (Raise e, s')
           end
  end.

(** Closing and reopening [n] times. *)
Fixpoint reopen (n : nat) : M state unit :=
  match n with
  | O => ret tt
  | S n => __exit__ ;;; __enter__ ;;; reopen n
  end.

(** ** Linking the handle to the engine

    [usable w k c kc cc]: in [w], [k] is the open connection [kc] and [c] is
    the open cursor [cc] of [k]. *)
Record usable (w : World) (k c : nat) (kc : Connection) (cc : Cursor) : Prop := {
  u_conn : w_conns w !! k = Some kc;
  u_open : c_open kc = true;
  u_cur : w_cursors w !! c = Some cc;
  u_copen : cu_open cc = true;
  u_link : cu_conn cc = k
}.

(** [linked w k c f σ rs]: moreover the connection is on [f], its session is
    [σ] and the rows the cursor still holds are [rs]. *)
Definition linked (w : World) (k c : nat) (f : string) (σ : session)
    (rs : list row) : Prop :=
  exists kc cc, usable w k c kc cc /\ c_name kc = f /\ load w kc = σ /\ cu_rows cc = rs.

(** [frame w w' evs]: from [w] to [w'] the calls [evs] were made; text files
    and access rights are as before, and no connection or cursor object was
    created. *)
Definition frame (w w' : World) (evs : list event) : Prop :=
  w_log w' = w_log w ++ evs /\ w_texts w' = w_texts w /\
  w_denied w' = w_denied w /\
  length (w_conns w') = length (w_conns w) /\
  length (w_cursors w') = length (w_cursors w).

Definition with_rows (cc : Cursor) (rs : list row) : Cursor :=
  {| cu_conn := cu_conn cc; cu_open := cu_open cc; cu_rows := rs |}.

Definition raise_or {A} (oe : option exn) (a : A) : outcome A :=
  match oe with
  | Some e => Raise e
  | None => Ret a
  end.

(** The object [__enter__] leaves when the connection can be made. *)
Definition entered (s : state) : SqliteDb :=
  {| db_file_name := db_file_name (self s);
     init_script_file_name := init_script_file_name (self s);
     connection := Some (length (w_conns (world s)));
     cursor := Some (length (w_cursors (world s))) |}.

(** The outcome of [__enter__] and the session it leaves, when the
    connection can be made. *)
Definition enter_outcome (s : state) : outcome unit * session :=
  let w := world s in
  let σ0 := fresh_session w (db_file_name (self s)) in
  let script := init_script_file_name (self s) in
  if truthy_str script then
    if bool_decide (count_tables (current σ0) = 0) then
      match w_texts w !! default "" script with
      | None => (Raise (FileNotFoundError (default "" script)), σ0)
      | Some text => let '(oe, σ') := script_on text σ0 in (raise_or oe tt, σ')
      end
    else (Ret tt, σ0)
  else (Ret tt, σ0).

(** The object [__exit__] leaves. *)
Definition exited (s : state) : SqliteDb :=
  {| db_file_name := db_file_name (self s);
     init_script_file_name := init_script_file_name (self s);
     connection := None;
     cursor := None |}.

Definition exit_events (s : state) : list event :=
  match cursor (self s) with
  | Some c => [EvCursorClose c]
  | None => []
  end ++
  match connection (self s) with
  | Some k => [EvConnectionClose k]
  | None => []
  end.

(** ** Helper tactics and lemmas *)

Ltac mred := unfold bind, ret, raise, gets, modify, lift.

Ltac wsimpl :=
  cbn [w_files w_texts w_denied w_conns w_cursors w_log
       record set_conns set_cursors set_files fst snd self world
       connection cursor db_file_name init_script_file_name
       s_disk s_txn s_pragmas c_name c_open c_mem c_txn c_pragmas
       cu_conn cu_open cu_rows] in *.

Definition q_count : select :=
  {| sel_proj := PCount; sel_from := "sqlite_master";
     sel_where := Some ("type", EStr "table") |}.

(** ** Example worlds and caller code

    The init script of the test suite creates one table and inserts three
    rows; [views.sql] creates no table; [bad.sql] fails at its second
    statement. *)

Definition init_sql : string :=
  "CREATE TABLE test_points(x INTEGER, y INTEGER); " +:+
  "INSERT INTO test_points VALUES (1, 2); " +:+
  "INSERT INTO test_points VALUES (3, 4); " +:+
  "INSERT INTO test_points VALUES (5, 6);".

Definition views_sql : string :=
  "CREATE VIEW names AS SELECT name FROM sqlite_master;".

Definition bad_sql : string :=
  "CREATE TABLE t(x INTEGER); INSERT INTO missing VALUES (1);".

Definition example_world : World :=
  {| w_files := ∅;
     w_texts := {[ "init.sql" := init_sql; "views.sql" := views_sql;
                   "bad.sql" := bad_sql ]};
     w_denied := {[ "/nowhere/test.db" ]};
     w_conns := [];
     w_cursors := [];
     w_log := [] |}.

Definition new_handle (f : string) (script : option string) : state :=
  {| self := __init__ f script; world := example_world |}.

(** Caller code: [db.cursor.execute(sql).fetchone()[0]]. *)
Definition fetch_value (sql : string) : M state value :=
  obj <~ gets (fun s => cursor (self s)) ;;
  c <~ attr obj "execute" ;;
  c' <~ lift (Cursor_execute c sql []) ;;
  r <~ lift (Cursor_fetchone c') ;;
  item0 r.

(** The reopening test: initialise, close, reopen, insert one row, count. *)
Definition reopening_scenario : M state value :=
  __enter__ ;;;
  __exit__ ;;;
  __enter__ ;;;
  run_query "INSERT INTO test_points(x, y) VALUES (100, 200)" ;;;
  fetch_value "SELECT count(*) FROM test_points".

Definition count_script_runs (evs : list event) : nat :=
  length (List.filter is_script_run evs).

(** A database file whose catalog holds one view and no table. *)
Definition views_db : database :=
  [ {| e_type := OView; e_name := "names"; e_tbl := "names";
       e_cols := []; e_rows := [] |} ].

(** The test database after the init script, the table dropped again, and
    the handle closed. *)
Definition drop_and_reopen : M state unit :=
  __enter__ ;;;
  run_query "DROP TABLE test_points" ;;;
  __exit__ ;;;
  __enter__.

(** The same file after a first open with [views.sql] and a close. *)
Definition views_state : state :=
  snd ((__enter__ ;;; __exit__) (new_handle "test.db" (Some "views.sql"))).

(** ** The remaining methods and further observations *)

(** [check]: two indexed reads whose results are dropped. *)
Definition check : M state unit :=
  __getitem__ "foreign_key_check" ;;;
  __getitem__ "integrity_check" ;;;
  ret tt.

(** The session of the connection the handle holds. *)
Definition session_of (s : state) : option session :=
  match connection (self s) with
  | Some k =>
      match w_conns (world s) !! k with
      | Some kc => Some (load (world s) kc)
      | None => None
      end
  | None => None
  end.

(** The result rows the handle's cursor still holds. *)
Definition rows_of (s : state) : list row :=
  match cursor (self s) with
  | Some c =>
      match w_cursors (world s) !! c with
      | Some cc => cu_rows cc
      | None => []
      end
  | None => []
  end.


(** Which connections of the world are open, by index. *)
Definition opens (w : World) : list bool := map c_open (w_conns w).

Definition q_tables : select :=
  {| sel_proj := PCol "name"; sel_from := "sqlite_master";
     sel_where := Some ("type", EStr "table") |}.

(** The names of the tables of a database, in catalog order. *)
Definition table_names_of (db : database) : list value :=
  map (fun e => VStr (e_name e)) (List.filter is_table db).

Definition no_cursor (name : string) : exn :=
  AttributeError ("'NoneType' object has no attribute '" +:+ name +:+ "'").

(** The test database, open after initialisation, and the same with one
    row inserted and not committed. *)
Definition opened_state : state :=
  snd (__enter__ (new_handle "test.db" (Some "init.sql"))).

Definition inserting_state : state :=
  snd (run_query "INSERT INTO test_points VALUES (7, 8)" opened_state).

(** The open test database with the rows of a query waiting on the cursor. *)
Definition selecting_state : state :=
  snd (run_query "SELECT * FROM test_points" opened_state).

(** The cursors that hold rows not fetched yet for connection [k]: the
    statements in progress on it. *)
Fixpoint waiting_from (i k : nat) (cs : list Cursor) : list nat :=
  match cs with
  | [] => []
  | cc :: r =>
      (if Nat.eqb (cu_conn cc) k
          && match cu_rows cc with [] => false | _ :: _ => true end
       then [i] else [])
      ++ waiting_from (S i) k r
  end.

Definition waiting_on (w : World) (k : nat) : list nat :=
  waiting_from 0 k (w_cursors w).

(** No cursor other than the handle's own has a statement in progress on
    the connection of the handle. *)
Definition others_idle (s : state) : bool :=
  match connection (self s), cursor (self s) with
  | Some k, Some c => forallb (Nat.eqb c) (waiting_on (world s) k)
  | _, _ => true
  end.

(** * Properties *)

(** ** The catalog query *)

Lemma prepare_count : prepare Q_COUNT_TABLES [] = inr (Some (SSelect q_count)).
Proof. vm_compute. reflexivity. Qed.

Lemma filter_master_tables (db : database) :
  length (List.filter (fun r => value_eqb (cell 0 r) (VStr "table"))
            (map master_row db))
  = count_tables db.
Proof.
  unfold count_tables.
  induction db as [|e db IH]; [reflexivity|].
  cbn [map List.filter]. unfold is_table at 1.
  change (cell 0 (master_row e)) with (VStr (type_name (e_type e))).
  unfold value_eqb at 1.
  destruct (e_type e); cbn [type_name]; case_bool_decide; try discriminate;
    try congruence; cbn [length]; rewrite IH; reflexivity.
Qed.

Lemma run_select_count (db : database) ps :
  run_select db q_count ps = inr [[VInt (Z.of_nat (count_tables db))]].
Proof.
  unfold run_select, q_count, relation_of. cbn.
  rewrite filter_master_tables. reflexivity.
Qed.

Lemma begin_not_needed s σ : is_dml s = false -> begin_if_needed s σ = σ.
Proof.
  intros H. unfold begin_if_needed. rewrite H. destruct (s_txn σ); reflexivity.
Qed.

Lemma execute_on_count σ rs :
  execute_on Q_COUNT_TABLES [] σ rs
  = (None, σ, [[VInt (Z.of_nat (count_tables (current σ)))]]).
Proof.
  unfold execute_on. rewrite prepare_count.
  rewrite begin_not_needed by reflexivity.
  cbn [exec]. rewrite run_select_count. reflexivity.
Qed.

(** ** The engine calls, seen from a linked handle *)

Lemma session_eta (σ : session) :
  {| s_disk := s_disk σ; s_txn := s_txn σ; s_pragmas := s_pragmas σ |} = σ.
Proof. destruct σ; reflexivity. Qed.

Lemma frame_refl w : frame w w [].
Proof. unfold frame. rewrite app_nil_r. auto. Qed.

Lemma frame_trans w1 w2 w3 e1 e2 :
  frame w1 w2 e1 -> frame w2 w3 e2 -> frame w1 w3 (e1 ++ e2).
Proof.
  unfold frame. intros (L1 & T1 & D1 & C1 & U1) (L2 & T2 & D2 & C2 & U2).
  rewrite L2, L1, T2, T1, D2, D1, C2, C1, U2, U1, app_assoc. auto.
Qed.

Lemma frame_record w e : frame w (record e w) [e].
Proof. unfold frame. wsimpl. auto. Qed.

Lemma frame_added w w' evs : frame w w' evs -> added w w' = evs.
Proof.
  intros (L & _). unfold added. rewrite L. apply drop_app_length.
Qed.

Lemma linked_record w k c f σ rs e :
  linked w k c f σ rs -> linked (record e w) k c f σ rs.
Proof.
  intros (kc & cc & [H1 H2 H3 H4 H5] & Hf & Hl & Hr).
  exists kc, cc. repeat split; assumption.
Qed.

Lemma linked_store w k c f σ rs σ' :
  linked w k c f σ rs ->
  exists kc, w_conns w !! k = Some kc /\ linked (store k kc σ' w) k c f σ' rs /\
             frame w (store k kc σ' w) [].
Proof.
  intros (kc & cc & [H1 H2 H3 H4 H5] & Hf & Hl & Hr).
  exists kc. split; [assumption|].
  assert (Hlt : k < length (w_conns w)) by (eapply lookup_lt_Some; eassumption).
  unfold store. destruct (in_memory (c_name kc)) eqn:Hm.
  - split.
    + eexists _, cc. split; [constructor; wsimpl|].
      * apply list_lookup_insert_eq; assumption.
      * assumption.
      * assumption.
      * assumption.
      * assumption.
      * repeat split; try assumption.
        unfold load, disk_of. wsimpl. rewrite Hm. apply session_eta.
    + unfold frame. wsimpl. rewrite app_nil_r, length_insert. auto.
  - split.
    + eexists _, cc. split; [constructor; wsimpl|].
      * apply list_lookup_insert_eq; assumption.
      * assumption.
      * assumption.
      * assumption.
      * assumption.
      * repeat split; try assumption.
        unfold load, disk_of. wsimpl. rewrite Hm, lookup_insert_eq.
        apply session_eta.
    + unfold frame. wsimpl. rewrite app_nil_r, length_insert. auto.
Qed.

Lemma linked_rows w k c f σ rs rs' :
  linked w k c f σ rs ->
  exists cc, w_cursors w !! c = Some cc /\
    linked (set_cursors (<[c := with_rows cc rs']> (w_cursors w)) w) k c f σ rs' /\
    frame w (set_cursors (<[c := with_rows cc rs']> (w_cursors w)) w) [].
Proof.
  intros (kc & cc & [H1 H2 H3 H4 H5] & Hf & Hl & Hr).
  exists cc. split; [assumption|].
  assert (Hlt : c < length (w_cursors w)) by (eapply lookup_lt_Some; eassumption).
  split.
  - exists kc, (with_rows cc rs'). split; [constructor; wsimpl|].
    + assumption.
    + assumption.
    + apply list_lookup_insert_eq; assumption.
    + assumption.
    + assumption.
    + repeat split; assumption.
  - unfold frame. wsimpl. rewrite app_nil_r, length_insert. auto.
Qed.

Lemma the_cursor_usable w k c kc cc :
  usable w k c kc cc -> the_cursor c w = (Ret cc, w).
Proof.
  intros [H1 H2 H3 H4 H5]. unfold the_cursor. mred. rewrite H3, H4. reflexivity.
Qed.

Lemma the_connection_usable w k c kc cc :
  usable w k c kc cc -> the_connection (cu_conn cc) w = (Ret kc, w).
Proof.
  intros [H1 H2 H3 H4 H5]. unfold the_connection. mred.
  rewrite H5, H1, H2. reflexivity.
Qed.

Lemma usable_record w k c kc cc e :
  usable w k c kc cc -> usable (record e w) k c kc cc.
Proof. intros [H1 H2 H3 H4 H5]. constructor; assumption. Qed.

Lemma Cursor_execute_linked w k c f σ rs sql ps :
  linked w k c f σ rs ->
  exists w',
    Cursor_execute c sql ps w
      = (raise_or (fst (fst (execute_on sql ps σ rs))) c, w') /\
    linked w' k c f (snd (fst (execute_on sql ps σ rs)))
                    (snd (execute_on sql ps σ rs)) /\
    frame w w' [EvExecute c sql ps].
Proof.
  intros Hl.
  pose proof (linked_record _ _ _ _ _ _ (EvExecute c sql ps) Hl) as Hl1.
  pose proof (frame_record w (EvExecute c sql ps)) as Hf1.
  set (w1 := record (EvExecute c sql ps) w) in *.
  destruct Hl1 as (kc & cc & Hu & Hn & Hload & Hrows).
  assert (Hl1 : linked w1 k c f σ rs) by (exists kc, cc; auto).
  unfold Cursor_execute, bind at 1, modify at 1. fold w1.
  unfold bind at 1. rewrite (the_cursor_usable _ _ _ _ _ Hu).
  unfold bind at 1. rewrite (the_connection_usable _ _ _ _ _ Hu).
  unfold execute_on.
  destruct (prepare sql ps) as [err|[st|]].
  - exists w1. cbn. auto.
  - unfold bind at 1, gets at 1. rewrite Hload.
    destruct (exec st ps (begin_if_needed st σ)) as [err|[σ' rs']].
    + exists w1. cbn. auto.
    + destruct (linked_store _ _ _ _ _ _ σ' Hl1) as (kc' & Hk' & Hl2 & Hf2).
      destruct Hu as [H1 H2 H3 H4 H5]. rewrite H5.
      assert (kc' = kc) by congruence. subst kc'.
      destruct (linked_rows _ _ _ _ _ _ rs' Hl2) as (cc' & Hc' & Hl3 & Hf3).
      assert (cc' = cc).
      { clear - Hc' H3.
        unfold store in Hc'. destruct (in_memory (c_name kc)); wsimpl; congruence. }
      subst cc'.
      eexists. split; [|split].
      * unfold set_rows. mred. cbn. reflexivity.
      * cbn. exact Hl3.
      * exact (frame_trans _ _ _ _ _ Hf1 (frame_trans _ _ _ _ _ Hf2 Hf3)).
  - destruct (linked_rows _ _ _ _ _ _ [] Hl1) as (cc' & Hc' & Hl3 & Hf3).
    destruct Hu as [H1 H2 H3 H4 H5].
    assert (cc' = cc) by congruence. subst cc'.
    eexists. split; [|split].
    + unfold set_rows. mred. cbn. reflexivity.
    + cbn. exact Hl3.
    + exact (frame_trans _ _ _ _ _ Hf1 Hf3).
Qed.

Lemma load_committed w kc :
  match s_txn (load w kc) with
  | Some d => {| s_disk := d; s_txn := None; s_pragmas := s_pragmas (load w kc) |}
  | None => load w kc
  end = committed (load w kc).
Proof. reflexivity. Qed.

Lemma Cursor_executescript_linked w k c f σ rs text :
  linked w k c f σ rs ->
  exists w',
    Cursor_executescript c text w = (raise_or (fst (script_on text σ)) c, w') /\
    linked w' k c f (snd (script_on text σ)) rs /\
    frame w w' [EvExecuteScript c text].
Proof.
  intros Hl.
  pose proof (linked_record _ _ _ _ _ _ (EvExecuteScript c text) Hl) as Hl1.
  pose proof (frame_record w (EvExecuteScript c text)) as Hf1.
  set (w1 := record (EvExecuteScript c text) w) in *.
  destruct Hl1 as (kc & cc & Hu & Hn & Hload & Hrows).
  assert (Hl1 : linked w1 k c f σ rs) by (exists kc, cc; auto).
  unfold Cursor_executescript, bind at 1, modify at 1. fold w1.
  unfold bind at 1. rewrite (the_cursor_usable _ _ _ _ _ Hu).
  unfold bind at 1. rewrite (the_connection_usable _ _ _ _ _ Hu).
  unfold bind at 1, gets at 1. rewrite load_committed, Hload.
  assert (Hk : cu_conn cc = k) by (destruct Hu; assumption). rewrite Hk.
  assert (Hkc : w_conns w1 !! k = Some kc) by (destruct Hu; assumption).
  unfold script_on.
  destruct (tokenize text) as [ts|].
  - destruct (exec_script (split_statements ts) (committed σ)) as [[err|] σ'] eqn:Hx.
    + destruct (linked_store _ _ _ _ _ _ σ' Hl1) as (kc' & Hk' & Hl2 & Hf2).
      assert (kc' = kc) by congruence. subst kc'.
      eexists. split; [|split].
      * mred. cbn. reflexivity.
      * cbn. exact Hl2.
      * rewrite <- (app_nil_r [_]). exact (frame_trans _ _ _ _ _ Hf1 Hf2).
    + destruct (linked_store _ _ _ _ _ _ σ' Hl1) as (kc' & Hk' & Hl2 & Hf2).
      assert (kc' = kc) by congruence. subst kc'.
      eexists. split; [|split].
      * mred. cbn. reflexivity.
      * cbn. exact Hl2.
      * rewrite <- (app_nil_r [_]). exact (frame_trans _ _ _ _ _ Hf1 Hf2).
  - destruct (linked_store _ _ _ _ _ _ (committed σ) Hl1) as (kc' & Hk' & Hl2 & Hf2).
    assert (kc' = kc) by congruence. subst kc'.
    eexists. split; [|split].
    + mred. cbn. reflexivity.
    + cbn. exact Hl2.
    + rewrite <- (app_nil_r [_]). exact (frame_trans _ _ _ _ _ Hf1 Hf2).
Qed.

Lemma Cursor_fetchone_linked w k c f σ rs :
  linked w k c f σ rs ->
  exists w',
    Cursor_fetchone c w = (Ret (head rs), w') /\
    linked w' k c f σ (tail rs) /\
    frame w w' [EvFetchone c].
Proof.
  intros Hl.
  pose proof (linked_record _ _ _ _ _ _ (EvFetchone c) Hl) as Hl1.
  pose proof (frame_record w (EvFetchone c)) as Hf1.
  set (w1 := record (EvFetchone c) w) in *.
  destruct Hl1 as (kc & cc & Hu & Hn & Hload & Hrows).
  assert (Hl1 : linked w1 k c f σ rs) by (exists kc, cc; auto).
  unfold Cursor_fetchone, bind at 1, modify at 1. fold w1.
  unfold bind at 1. rewrite (the_cursor_usable _ _ _ _ _ Hu).
  unfold bind at 1. rewrite (the_connection_usable _ _ _ _ _ Hu).
  rewrite Hrows. destruct rs as [|r rest].
  - exists w1. cbn. auto.
  - destruct (linked_rows _ _ _ _ _ _ rest Hl1) as (cc' & Hc' & Hl3 & Hf3).
    assert (cc' = cc) by (destruct Hu; congruence). subst cc'.
    eexists. split; [|split].
    + unfold set_rows. mred. cbn. reflexivity.
    + cbn. exact Hl3.
    + rewrite <- (app_nil_r [_]). exact (frame_trans _ _ _ _ _ Hf1 Hf3).
Qed.

Lemma read_file_run w name :
  read_file name w
  = (match w_texts w !! name with
     | Some text => Ret text
     | None => Raise (FileNotFoundError name)
     end, record (EvOpenFile name) w).
Proof.
  unfold read_file. mred. wsimpl. destruct (w_texts w !! name); reflexivity.
Qed.

Lemma connect_denied w f :
  f ∈ w_denied w ->
  connect f w = (Raise (OperationalError "unable to open database file"),
                 record (EvConnect f) w).
Proof.
  intros H. unfold connect. mred. wsimpl.
  rewrite bool_decide_eq_true_2 by assumption. reflexivity.
Qed.

Lemma connect_ok w f :
  f ∉ w_denied w ->
  exists w',
    connect f w = (Ret (length (w_conns w)), w') /\
    w_log w' = w_log w ++ [EvConnect f] /\
    w_texts w' = w_texts w /\ w_denied w' = w_denied w /\
    w_cursors w' = w_cursors w /\
    (exists kc, w_conns w' = w_conns w ++ [kc] /\ c_open kc = true /\
                c_name kc = f /\ load w' kc = fresh_session w f).
Proof.
  intros H. unfold connect. mred. wsimpl.
  rewrite bool_decide_eq_false_2 by assumption.
  eexists. split; [reflexivity|].
  unfold fresh_session, disk, load, disk_of.
  destruct (in_memory f) eqn:Hm; wsimpl.
  - repeat split. eexists. split; [reflexivity|]. wsimpl. rewrite Hm. auto.
  - destruct (w_files w !! f) as [d|] eqn:Hd; wsimpl; repeat split;
      (eexists; split; [reflexivity|]); wsimpl; rewrite Hm;
      rewrite ?lookup_insert_eq, ?Hd; auto.
Qed.

Lemma Connection_cursor_ok w k kc :
  w_conns w !! k = Some kc -> c_open kc = true ->
  Connection_cursor k w
  = (Ret (length (w_cursors w)),
     set_cursors (w_cursors w ++ [{| cu_conn := k; cu_open := true; cu_rows := [] |}])
       (record (EvCursor k) w)).
Proof.
  intros Hk Ho. unfold Connection_cursor, the_connection. mred. wsimpl.
  rewrite Hk, Ho. reflexivity.
Qed.

(** ** The methods, seen from a linked handle *)

Lemma is_zero_count (n : nat) :
  bool_decide (VInt (Z.of_nat n) = VInt 0) = bool_decide (n = 0).
Proof.
  apply bool_decide_ext. split.
  - intros H. injection H. lia.
  - intros ->. reflexivity.
Qed.

Lemma is_empty_db_linked s k c f σ rs :
  cursor (self s) = Some c ->
  linked (world s) k c f σ rs ->
  exists w',
    is_empty_db s = (Ret (bool_decide (count_tables (current σ) = 0)),
                     {| self := self s; world := w' |}) /\
    linked w' k c f σ [] /\
    frame (world s) w' [EvExecute c Q_COUNT_TABLES []; EvFetchone c].
Proof.
  intros Hc Hl.
  destruct (Cursor_execute_linked _ _ _ _ _ _ Q_COUNT_TABLES [] Hl)
    as (w1 & E1 & Hl1 & Hf1).
  rewrite execute_on_count in E1, Hl1. cbn [fst snd raise_or] in E1, Hl1.
  destruct (Cursor_fetchone_linked _ _ _ _ _ _ Hl1) as (w2 & E2 & Hl2 & Hf2).
  cbn [head tail] in E2, Hl2.
  exists w2. split; [|split].
  - unfold is_empty_db. unfold bind at 1, gets at 1. rewrite Hc.
    unfold bind at 1, attr, ret at 1.
    unfold bind at 1, lift at 1. rewrite E1. cbn [self world].
    unfold bind at 1, lift at 1. cbn [self world]. rewrite E2.
    unfold bind, item0, ret. rewrite is_zero_count. reflexivity.
  - exact Hl2.
  - exact (frame_trans _ _ _ _ _ Hf1 Hf2).
Qed.

Lemma execute_file_linked s k c f σ rs name :
  cursor (self s) = Some c ->
  linked (world s) k c f σ rs ->
  exists w',
    execute_file name s
    = (match w_texts (world s) !! name with
       | Some text => raise_or (fst (script_on text σ)) c
       | None => Raise (FileNotFoundError name)
       end, {| self := self s; world := w' |}) /\
    linked w' k c f
      (match w_texts (world s) !! name with
       | Some text => snd (script_on text σ)
       | None => σ
       end) rs /\
    frame (world s) w'
      (EvOpenFile name ::
       match w_texts (world s) !! name with
       | Some text => [EvExecuteScript c text]
       | None => []
       end).
Proof.
  intros Hc Hl.
  pose proof (linked_record _ _ _ _ _ _ (EvOpenFile name) Hl) as Hl1.
  pose proof (frame_record (world s) (EvOpenFile name)) as Hf1.
  unfold execute_file. unfold bind at 1, lift at 1. rewrite read_file_run.
  destruct (w_texts (world s) !! name) as [text|].
  - destruct (Cursor_executescript_linked _ _ _ _ _ _ text Hl1)
      as (w2 & E2 & Hl2 & Hf2).
    exists w2. split; [|split].
    + unfold bind at 1, gets at 1. cbn [self world]. rewrite Hc.
      unfold bind at 1, attr, ret at 1. unfold lift. cbn [self world].
      rewrite E2. reflexivity.
    + exact Hl2.
    + exact (frame_trans _ _ _ _ _ Hf1 Hf2).
  - eexists. split; [reflexivity|]. split; assumption.
Qed.

Lemma enter_denied s :
  db_file_name (self s) ∈ w_denied (world s) ->
  __enter__ s
  = (Raise (OperationalError "unable to open database file"),
     {| self := self s;
        world := record (EvConnect (db_file_name (self s))) (world s) |}).
Proof.
  intros H. unfold __enter__. unfold bind at 1, gets at 1.
  unfold bind at 1, lift at 1. rewrite (connect_denied _ _ H). reflexivity.
Qed.

Lemma enter_spec s :
  db_file_name (self s) ∉ w_denied (world s) ->
  exists w' rs,
    __enter__ s = (fst (enter_outcome s), {| self := entered s; world := w' |}) /\
    linked w' (length (w_conns (world s))) (length (w_cursors (world s)))
      (db_file_name (self s)) (snd (enter_outcome s)) rs /\
    w_log w' = w_log (world s) ++ enter_events s /\
    w_texts w' = w_texts (world s) /\
    w_denied w' = w_denied (world s) /\
    length (w_conns w') = S (length (w_conns (world s))) /\
    length (w_cursors w') = S (length (w_cursors (world s))).
Proof.
  intros Hd.
  destruct (connect_ok _ _ Hd)
    as (w1 & E1 & L1 & T1 & D1 & C1 & kc & K1 & Ho & Hn & Hload).
  set (k := length (w_conns (world s))) in *.
  set (c := length (w_cursors (world s))) in *.
  set (f := db_file_name (self s)) in *.
  assert (Hk : w_conns w1 !! k = Some kc).
  { rewrite K1. apply list_lookup_middle. reflexivity. }
  pose proof (Connection_cursor_ok _ _ _ Hk Ho) as E2.
  rewrite C1 in E2. fold c in E2.
  set (w2 := set_cursors _ _) in E2.
  assert (Hl2 : linked w2 k c f (fresh_session (world s) f) []).
  { exists kc, {| cu_conn := k; cu_open := true; cu_rows := [] |}.
    split; [constructor|]; unfold w2; wsimpl; auto;
      try (apply list_lookup_middle; reflexivity). }
  assert (Hlog2 : w_log w2 = w_log (world s) ++ [EvConnect f; EvCursor k]).
  { unfold w2. wsimpl. rewrite L1, <- app_assoc. reflexivity. }
  assert (Hlen2 : length (w_conns w2) = S k /\ length (w_cursors w2) = S c).
  { unfold w2. wsimpl. rewrite K1, !length_app. cbn. fold k c. lia. }
  assert (HT2 : w_texts w2 = w_texts (world s)) by (unfold w2; wsimpl; congruence).
  assert (HD2 : w_denied w2 = w_denied (world s)) by (unfold w2; wsimpl; congruence).
  set (s2 := {| self := entered s; world := w2 |}).
  assert (Hstart : forall tail : M state unit,
    (name <~ gets (fun s => db_file_name (self s)) ;;
     k <~ lift (connect name) ;;
     set_connection (Some k) ;;;
     obj <~ gets (fun s => connection (self s)) ;;
     k' <~ attr obj "cursor" ;;
     c <~ lift (Connection_cursor k') ;;
     set_cursor (Some c) ;;; tail) s = tail s2).
  { intros tail. unfold bind at 1, gets at 1. unfold bind at 1, lift at 1.
    fold f. rewrite E1. unfold bind at 1, set_connection, modify at 1.
    unfold bind at 1, gets at 1. cbn [self world connection].
    unfold bind at 1, attr, ret at 1.
    unfold bind at 1, lift at 1. cbn [self world]. rewrite E2.
    unfold bind at 1, set_cursor, modify at 1. reflexivity. }
  unfold __enter__. rewrite Hstart. clear Hstart.
  unfold enter_outcome, enter_events. fold f k c.
  unfold bind at 1, gets at 1. cbn [self s2 entered init_script_file_name].
  fold s2.
  change (current (fresh_session (world s) f)) with (disk (world s) f).
  destruct (truthy_str (init_script_file_name (self s))).
  2:{ exists w2, []. cbn [fst snd]. rewrite app_nil_r.
      repeat split; try tauto; try assumption. }
  destruct (is_empty_db_linked s2 k c f _ _ eq_refl Hl2) as (w3 & E3 & Hl3 & Hf3).
  change (current (fresh_session (world s) f)) with (disk (world s) f) in E3.
  unfold bind at 1. rewrite E3.
  destruct Hf3 as (L3 & T3 & D3 & C3 & U3). cbn [world s2] in L3, T3, D3, C3, U3.
  destruct (bool_decide (count_tables (disk (world s) f) = 0)).
  2:{ exists w3, []. cbn [fst snd]. rewrite app_nil_r, L3, Hlog2, <- app_assoc.
      repeat split; try congruence; try lia; try assumption. }
  set (s3 := {| self := self s2; world := w3 |}).
  destruct (execute_file_linked s3 k c f _ _
              (default "" (init_script_file_name (self s))) eq_refl Hl3)
    as (w4 & E4 & Hl4 & Hf4).
  destruct Hf4 as (L4 & T4 & D4 & C4 & U4). cbn [world s3] in L4, T4, D4, C4, U4, E4, Hl4.
  unfold bind at 1. rewrite E4. cbn [world s3].
  rewrite T3, HT2.
  rewrite T3, HT2 in E4, Hl4, L4.
  exists w4, []. split; [|split; [|split]].
  - destruct (w_texts (world s) !! default "" (init_script_file_name (self s)))
      as [text|]; [|reflexivity].
    destruct (script_on text (fresh_session (world s) f)) as [[e|] σ'];
      reflexivity.
  - destruct (w_texts (world s) !! default "" (init_script_file_name (self s)))
      as [text|]; [|exact Hl4].
    destruct (script_on text (fresh_session (world s) f)) as [[e|] σ'];
      exact Hl4.
  - rewrite L4, L3, Hlog2, <- !app_assoc. reflexivity.
  - repeat split; try congruence; lia.
Qed.

(** ** From the observations to the link and back *)

Lemma handle_open_linked s :
  handle_open s = true ->
  exists k c f σ rs,
    connection (self s) = Some k /\ cursor (self s) = Some c /\
    linked (world s) k c f σ rs /\ visible s = current σ.
Proof.
  unfold handle_open, visible, seen, conn_is_open, cursor_is_usable.
  destruct (connection (self s)) as [k|]; [|discriminate].
  destruct (cursor (self s)) as [c|]; [|discriminate].
  destruct (w_conns (world s) !! k) as [kc|] eqn:Hk; [|discriminate].
  destruct (w_cursors (world s) !! c) as [cc|] eqn:Hc;
    [|rewrite andb_false_r; discriminate].
  intros H. apply andb_true_iff in H as [Ho H].
  apply andb_true_iff in H as [Hco Hl]. apply Nat.eqb_eq in Hl.
  exists k, c, (c_name kc), (load (world s) kc), (cu_rows cc).
  repeat split; try reflexivity.
  exists kc, cc. repeat split; assumption.
Qed.

Lemma linked_handle_open s k c f σ rs :
  connection (self s) = Some k -> cursor (self s) = Some c ->
  linked (world s) k c f σ rs ->
  handle_open s = true /\ visible s = current σ.
Proof.
  intros Hk Hc (kc & cc & [H1 H2 H3 H4 H5] & Hf & Hl & Hr).
  unfold handle_open, visible, seen, conn_is_open, cursor_is_usable.
  rewrite Hk, Hc, H1, H3, H2, H4, H5, Nat.eqb_refl, Hl. auto.
Qed.

Lemma linked_disk w k c f σ rs :
  linked w k c f σ rs -> in_memory f = false -> disk w f = s_disk σ.
Proof.
  intros (kc & cc & _ & Hf & Hl & _) Hm. subst f σ.
  unfold disk, load, disk_of. cbn. rewrite Hm. reflexivity.
Qed.

(** ** Closing *)

Lemma Cursor_close_run w k c kc cc :
  usable w k c kc cc ->
  exists w',
    Cursor_close c w = (Ret tt, w') /\
    frame w w' [EvCursorClose c] /\
    w_conns w' = w_conns w /\ w_files w' = w_files w /\
    (forall k', cursor_is_usable w' k' c = false).
Proof.
  intros Hu.
  pose proof (usable_record _ _ _ _ _ (EvCursorClose c) Hu) as Hu1.
  pose proof (frame_record w (EvCursorClose c)) as Hf1.
  destruct Hu1 as [H1 H2 H3 H4 H5].
  unfold Cursor_close. unfold bind at 1, modify at 1.
  unfold bind at 1, gets at 1. rewrite H3.
  unfold bind at 1, the_connection. unfold bind at 1, gets at 1.
  rewrite H5, H1, H2. unfold ret at 1, modify.
  eexists. split; [reflexivity|].
  assert (Hlt : c < length (w_cursors w)).
  { eapply lookup_lt_Some. exact H3. }
  split; [|split; [reflexivity|split; [reflexivity|]]].
  - destruct Hf1 as (L & T & D & C & U).
    unfold frame. wsimpl. rewrite length_insert. auto.
  - intros k'. unfold cursor_is_usable. wsimpl.
    rewrite list_lookup_insert_eq by assumption. reflexivity.
Qed.

Lemma Connection_close_run w k :
  exists w',
    Connection_close k w = (Ret tt, w') /\
    frame w w' [EvConnectionClose k] /\
    conn_is_open w' k = false /\ w_files w' = w_files w /\
    w_cursors w' = w_cursors w.
Proof.
  unfold Connection_close. mred. eexists. split; [reflexivity|].
  wsimpl. unfold conn_is_open.
  destruct (w_conns w !! k) as [kc|] eqn:Hk; unfold frame; wsimpl.
  - rewrite length_insert, list_lookup_insert_eq
      by (eapply lookup_lt_Some; eassumption). auto 10.
  - rewrite Hk. auto 10.
Qed.

(** A handle without cursor and connection: [__exit__] does nothing. *)
Lemma exit_closed s :
  handle_closed s = true -> __exit__ s = (Ret tt, s).
Proof.
  unfold handle_closed, __exit__. mred.
  destruct s as [[f script [k|] [c|]] w]; cbn; try discriminate. reflexivity.
Qed.

(** [__exit__] on a handle that is open, or closed. *)
Lemma exit_spec s :
  handle_open s = true \/ handle_closed s = true ->
  exists w',
    __exit__ s = (Ret tt, {| self := exited s; world := w' |}) /\
    frame (world s) w' (exit_events s) /\
    w_files w' = w_files (world s) /\
    match connection (self s) with
    | Some k => conn_is_open w' k = false
    | None => True
    end /\
    match cursor (self s) with
    | Some c => forall k, cursor_is_usable w' k c = false
    | None => True
    end /\
    (handle_closed s = true -> w' = world s).
Proof.
  intros [Ho|Hc].
  - destruct (handle_open_linked _ Ho)
      as (k & c & f & σ & rs & Hk & Hc & (kc & cc & Hu & _) & _).
    destruct (Cursor_close_run _ _ _ _ _ Hu) as (w1 & E1 & F1 & K1 & Fi1 & U1).
    destruct (Connection_close_run w1 k) as (w2 & E2 & F2 & O2 & Fi2 & Cu2).
    exists w2. unfold exit_events, handle_closed. rewrite Hk, Hc.
    split; [|split; [exact (frame_trans _ _ _ _ _ F1 F2)|]].
    + unfold __exit__. unfold bind at 1, gets at 1. rewrite Hc.
      unfold bind at 1. unfold bind at 1, lift at 1. rewrite E1.
      unfold set_cursor, modify at 1. cbn [self world].
      unfold bind at 1, gets at 1. cbn [self world connection]. rewrite Hk.
      unfold bind, lift, set_connection, modify. cbn [self world].
      rewrite E2. reflexivity.
    + split; [congruence|]. split; [assumption|]. split; [|discriminate].
      intros k'. unfold cursor_is_usable. rewrite Cu2. apply U1.
  - exists (world s). rewrite (exit_closed s Hc).
    unfold exit_events. unfold handle_closed in Hc.
    destruct s as [[f script [k|] [c|]] w]; cbn in *; try discriminate.
    split; [reflexivity|]. split; [apply frame_refl|]. auto.
Qed.

(** ** C5: closing *)

(** C5. On a handle that is open or closed - the two states a handle is in
    after any sequence of open and close operations - [__exit__] never
    raises; it closes the cursor before the connection (the trace it adds
    is the cursor's close followed by the connection's), leaves both fields
    [None] and the engine connection closed; on the closed handle it
    leaves, any number of further calls add no engine call, change nothing
    and return normally. *)
Theorem exit_releases_and_is_idempotent (s : state) (n : nat) :
  handle_open s = true \/ handle_closed s = true ->
  let s' := snd (__exit__ s) in
  fst (__exit__ s) = Ret tt /\
  added (world s) (world s') = exit_events s /\
  connection (self s') = None /\ cursor (self s') = None /\
  match cursor (self s) with
  | Some c => forall k, cursor_is_usable (world s') k c = false
  | None => True
  end /\
  match connection (self s) with
  | Some k => conn_is_open (world s') k = false
  | None => True
  end /\
  repeat_exit n s' = (Ret tt, s').
Proof.
  intros Hinv.
  destruct (exit_spec s Hinv) as (w' & E & F & _ & O & U & _).
  cbn zeta. rewrite E. cbn [fst snd self world].
  split; [reflexivity|]. split; [exact (frame_added _ _ _ F)|].
  split; [reflexivity|]. split; [reflexivity|]. split; [exact U|].
  split; [exact O|].
  induction n as [|n IH]; [reflexivity|].
  cbn [repeat_exit].
  rewrite (exit_closed {| self := exited s; world := w' |} eq_refl). exact IH.
Qed.

Lemma exit_releases_and_is_idempotent_witness :
  fst (__exit__ opened_state) = Ret tt /\
  added (world opened_state) (world (snd (__exit__ opened_state)))
  = [EvCursorClose 0; EvConnectionClose 0] /\
  handle_closed (snd (__exit__ opened_state)) = true /\
  repeat_exit 3 (snd (__exit__ opened_state))
  = (Ret tt, snd (__exit__ opened_state)) /\
  repeat_exit 3 (snd (__exit__ (new_handle "test.db" None)))
  = (Ret tt, snd (__exit__ (new_handle "test.db" None))).
Proof.
  destruct (exit_releases_and_is_idempotent opened_state 3)
    as (H1 & H2 & H3 & H4 & _ & _ & H7); [left; vm_compute; reflexivity|].
  destruct (exit_releases_and_is_idempotent (new_handle "test.db" None) 3)
    as (_ & _ & _ & _ & _ & _ & H7'); [right; reflexivity|].
  split; [exact H1|]. split; [etransitivity; [exact H2|vm_compute; reflexivity]|].
  split; [unfold handle_closed; rewrite H3, H4; reflexivity|].
  split; [exact H7|exact H7'].
Defined.

(** Outside these states [__exit__] can raise: when the connection was
    closed behind the handle, closing the cursor fails and both fields
    stay set. *)
Example exit_after_the_connection_was_closed :
  fst ((lift (Connection_close 0) ;;; __exit__) opened_state)
  = Raise (ProgrammingError "Cannot operate on a closed database.") /\
  connection (self (snd ((lift (Connection_close 0) ;;; __exit__) opened_state)))
  = Some 0 /\
  cursor (self (snd ((lift (Connection_close 0) ;;; __exit__) opened_state)))
  = Some 0.
Proof. repeat split; vm_compute; reflexivity. Qed.

(** ** C6: the state invariant *)

Lemma enter_keeps_invariant s :
  handle_open s = true \/ handle_closed s = true ->
  handle_open (snd (__enter__ s)) = true \/
  handle_closed (snd (__enter__ s)) = true.
Proof.
  intros Hinv.
  destruct (decide (db_file_name (self s) ∈ w_denied (world s))) as [Hd|Hd].
  - rewrite (enter_denied _ Hd). cbn [snd]. exact Hinv.
  - destruct (enter_spec _ Hd) as (w' & rs & E & Hl & _).
    rewrite E. cbn [snd]. left.
    exact (proj1 (linked_handle_open {| self := entered s; world := w' |}
                    _ _ _ _ _ eq_refl eq_refl Hl)).
Qed.

Lemma exit_closes s :
  handle_open s = true \/ handle_closed s = true ->
  handle_closed (snd (__exit__ s)) = true.
Proof.
  intros Hinv. destruct (exit_spec s Hinv) as (w' & E & _).
  rewrite E. reflexivity.
Qed.

Lemma run_ops_invariant ops s :
  handle_open s = true \/ handle_closed s = true ->
  handle_open (run_ops ops s) = true \/ handle_closed (run_ops ops s) = true.
Proof.
  revert s. induction ops as [|o ops IH]; intros s Hinv; [exact Hinv|].
  cbn [run_ops fold_left]. apply IH. destruct o; cbn [run_op].
  - apply enter_keeps_invariant, Hinv.
  - right. apply exit_closes, Hinv.
Qed.

(** C6. Construction yields a closed handle with both fields [None] (it is
    a pure function: no engine call, no failure).  After any sequence of
    open and close operations on it, in any world and whether or not the
    operations raised, the connection field is set exactly when the handle
    is open (its connection is open in the engine and its cursor is an open
    cursor of that connection), and the cursor field is set exactly when
    the connection field is. *)
Theorem state_invariant (ops : list op) (f : string) (script : option string)
    (w : World) :
  let s0 := {| self := __init__ f script; world := w |} in
  let s := run_ops ops s0 in
  connection (__init__ f script) = None /\
  cursor (__init__ f script) = None /\
  handle_closed s0 = true /\
  (is_Some (connection (self s)) <-> handle_open s = true) /\
  (is_Some (cursor (self s)) <-> is_Some (connection (self s))).
Proof.
  cbn zeta. split; [reflexivity|]. split; [reflexivity|]. split; [reflexivity|].
  set (s0 := {| self := __init__ f script; world := w |}).
  assert (Hinv : handle_open (run_ops ops s0) = true \/
                 handle_closed (run_ops ops s0) = true).
  { apply run_ops_invariant. right. reflexivity. }
  revert Hinv. generalize (run_ops ops s0). intros s.
  unfold handle_open, handle_closed.
  destruct (connection (self s)) as [k|], (cursor (self s)) as [c|];
    intros [H|H]; try discriminate H; rewrite ?H;
    repeat split; intros; try discriminate; eauto;
    match goal with
    | X : is_Some None |- _ => destruct X; discriminate
    end.
Qed.

(** ** C7: the emptiness check *)

Lemma is_empty_db_open (s : state) :
  handle_open s = true ->
  fst (is_empty_db s) = Ret (bool_decide (count_tables (visible s) = 0)).
Proof.
  intros Ho.
  destruct (handle_open_linked _ Ho) as (k & c & f & σ & rs & Hk & Hc & Hl & Hv).
  destruct (is_empty_db_linked _ _ _ _ _ _ Hc Hl) as (w' & E & _).
  rewrite E, Hv. reflexivity.
Qed.

(** C7. On an open handle [is_empty_db] returns whether the number of
    catalog entries of type table, in the database the connection sees, is
    zero.  On a closed handle it raises: the attribute access on the [None]
    cursor fails (Python's AttributeError is the error of a handle that is
    not open). *)
Theorem is_empty_db_spec (s : state) :
  (handle_open s = true ->
   fst (is_empty_db s) = Ret (bool_decide (count_tables (visible s) = 0))) /\
  (handle_closed s = true ->
   fst (is_empty_db s)
   = Raise (AttributeError "'NoneType' object has no attribute 'execute'")).
Proof.
  split.
  - apply is_empty_db_open.
  - unfold handle_closed, is_empty_db. mred.
    destruct (connection (self s)); [discriminate|].
    destruct (cursor (self s)); [discriminate|]. reflexivity.
Qed.

Lemma is_empty_db_spec_witness :
  fst (is_empty_db (snd (__enter__ (new_handle "test.db" (Some "init.sql")))))
  = Ret false /\
  fst (is_empty_db (snd (__enter__ (new_handle "test.db" None)))) = Ret true /\
  fst (is_empty_db (new_handle "test.db" (Some "init.sql")))
  = Raise (AttributeError "'NoneType' object has no attribute 'execute'").
Proof.
  split; [|split].
  - etransitivity;
      [apply (proj1 (is_empty_db_spec _)); vm_compute; reflexivity
      |vm_compute; reflexivity].
  - etransitivity;
      [apply (proj1 (is_empty_db_spec _)); vm_compute; reflexivity
      |vm_compute; reflexivity].
  - apply (proj2 (is_empty_db_spec _)). vm_compute. reflexivity.
Defined.

(** The table names come in creation order. *)
Example tables_names_in_creation_order :
  fst ((__enter__ ;;; tables_names)
         (new_handle "test.db" (Some "init.sql")))
  = Ret [VStr "test_points"] /\
  fst ((__enter__ ;;; run_query "CREATE TABLE abc (x INTEGER)" ;;; tables_names)
         (new_handle "test.db" (Some "init.sql")))
  = Ret [VStr "test_points"; VStr "abc"] /\
  fst ((__enter__ ;;; run_query "CREATE TABLE aaa(x INTEGER)" ;;; is_empty_db)
         (new_handle ":memory:" None))
  = Ret false.
Proof. repeat split; vm_compute; reflexivity. Qed.

(** ** C8 and C9: statements the engine rejects *)

Lemma Cursor_execute_rejected w k c kc cc sql ps err :
  usable w k c kc cc -> prepare sql ps = inl err ->
  Cursor_execute c sql ps w = (Raise err, record (EvExecute c sql ps) w).
Proof.
  intros Hu Hp.
  pose proof (usable_record _ _ _ _ _ (EvExecute c sql ps) Hu) as Hu1.
  unfold Cursor_execute, bind at 1, modify at 1.
  unfold bind at 1. rewrite (the_cursor_usable _ _ _ _ _ Hu1).
  unfold bind at 1. rewrite (the_connection_usable _ _ _ _ _ Hu1).
  rewrite Hp. reflexivity.
Qed.

Lemma handle_open_usable s :
  handle_open s = true ->
  exists k c kc cc,
    connection (self s) = Some k /\ cursor (self s) = Some c /\
    usable (world s) k c kc cc.
Proof.
  intros Ho.
  destruct (handle_open_linked _ Ho)
    as (k & c & f & σ & rs & Hk & Hc & (kc & cc & Hu & _) & _).
  exists k, c, kc, cc. auto.
Qed.

Lemma prepare_pragma_get item :
  prepare "PRAGMA ?" [VStr item] = inl (OperationalError "syntax error").
Proof. vm_compute. reflexivity. Qed.

Lemma prepare_pragma_set key v :
  prepare "PRAGMA ? = ?" [VStr key; v] = inl (OperationalError "syntax error").
Proof. vm_compute. reflexivity. Qed.

Lemma prepare_start : prepare Q_START [] = inl (OperationalError "syntax error").
Proof. vm_compute. reflexivity. Qed.

(** C8. On every open handle, for every pragma name and value, the indexed
    get and the indexed set raise the engine's syntax error: SQLite's
    grammar has no bind parameter in a PRAGMA statement, so the text is
    rejected when it is prepared, nothing is read and nothing is assigned
    (the world only gains the trace of the call). *)
Theorem pragma_access_is_rejected (s : state) (item : string) (v : value) :
  handle_open s = true ->
  exists c,
    cursor (self s) = Some c /\
    __getitem__ item s
    = (Raise (OperationalError "syntax error"),
       {| self := self s;
          world := record (EvExecute c "PRAGMA ?" [VStr item]) (world s) |}) /\
    __setitem__ item v s
    = (Raise (OperationalError "syntax error"),
       {| self := self s;
          world := record (EvExecute c "PRAGMA ? = ?" [VStr item; v]) (world s) |}).
Proof.
  intros Ho.
  destruct (handle_open_usable _ Ho) as (k & c & kc & cc & Hk & Hc & Hu).
  exists c. split; [assumption|]. split.
  - unfold __getitem__. unfold bind at 1, gets at 1. rewrite Hc.
    unfold bind at 1, attr, ret at 1. unfold bind at 1, lift at 1.
    rewrite (Cursor_execute_rejected _ _ _ _ _ _ _ _ Hu (prepare_pragma_get item)).
    reflexivity.
  - unfold __setitem__. unfold bind at 1, gets at 1. rewrite Hc.
    unfold bind at 1, attr, ret at 1. unfold bind at 1, lift at 1.
    rewrite (Cursor_execute_rejected _ _ _ _ _ _ _ _ Hu (prepare_pragma_set item v)).
    reflexivity.
Qed.

Lemma pragma_access_is_rejected_witness :
  fst (__getitem__ "journal_mode" (snd (__enter__ (new_handle "test.db" None))))
  = Raise (OperationalError "syntax error") /\
  fst (__setitem__ "journal_mode" (VStr "WAL")
         (snd (__enter__ (new_handle "test.db" None))))
  = Raise (OperationalError "syntax error").
Proof.
  destruct (pragma_access_is_rejected
              (snd (__enter__ (new_handle "test.db" None)))
              "journal_mode" (VStr "WAL"))
    as (c & _ & Hget & Hset).
  - vm_compute. reflexivity.
  - rewrite Hget, Hset. split; reflexivity.
Defined.

(** The same pragma, written out in the statement text, is read and
    assigned by the engine. *)
Example pragma_in_the_text_works :
  fst ((__enter__ ;;; fetch_value "PRAGMA foreign_keys")
         (new_handle "test.db" None)) = Ret (VInt 0) /\
  fst ((__enter__ ;;; run_query "PRAGMA foreign_keys = ON" ;;;
        fetch_value "PRAGMA foreign_keys")
         (new_handle "test.db" None)) = Ret (VStr "ON").
Proof. split; vm_compute; reflexivity. Qed.

(** C9. On every open handle [start_transaction] raises the engine's syntax
    error: the text it submits, START TRANSACTION, is not a statement of
    SQLite (whose statement is BEGIN), so no transaction is started and the
    world only gains the trace of the call. *)
Theorem start_transaction_is_rejected (s : state) :
  handle_open s = true ->
  exists c,
    cursor (self s) = Some c /\
    start_transaction s
    = (Raise (OperationalError "syntax error"),
       {| self := self s;
          world := record (EvExecute c Q_START []) (world s) |}).
Proof.
  intros Ho.
  destruct (handle_open_usable _ Ho) as (k & c & kc & cc & Hk & Hc & Hu).
  exists c. split; [assumption|].
  unfold start_transaction, run_query. unfold bind at 1, gets at 1. rewrite Hc.
  unfold bind at 1, attr, ret at 1. unfold bind at 1, lift at 1.
  rewrite (Cursor_execute_rejected _ _ _ _ _ _ _ _ Hu prepare_start).
  reflexivity.
Qed.

Lemma start_transaction_is_rejected_witness :
  fst (start_transaction (snd (__enter__ (new_handle "test.db" (Some "init.sql")))))
  = Raise (OperationalError "syntax error").
Proof.
  destruct (start_transaction_is_rejected
              (snd (__enter__ (new_handle "test.db" (Some "init.sql")))))
    as (c & _ & H).
  - vm_compute. reflexivity.
  - rewrite H. reflexivity.
Defined.

(** The other two are passed through in the engine's dialect, and so is a
    transaction begun with the engine's own statement; on a closed handle
    all three raise on the [None] cursor. *)
Example transaction_statements :
  fst ((__enter__ ;;; run_query "BEGIN TRANSACTION" ;;;
        run_query "INSERT INTO test_points VALUES (7, 8)" ;;; commit ;;;
        fetch_value "SELECT count(*) FROM test_points")
         (new_handle "test.db" (Some "init.sql"))) = Ret (VInt 4) /\
  fst ((__enter__ ;;; run_query "BEGIN" ;;;
        run_query "INSERT INTO test_points VALUES (7, 8)" ;;; rollback ;;;
        fetch_value "SELECT count(*) FROM test_points")
         (new_handle "test.db" (Some "init.sql"))) = Ret (VInt 3) /\
  fst (commit (snd (__enter__ (new_handle "test.db" (Some "init.sql")))))
  = Raise (OperationalError "cannot commit - no transaction is active") /\
  fst (start_transaction (new_handle "test.db" None))
  = Raise (AttributeError "'NoneType' object has no attribute 'execute'") /\
  fst (commit (new_handle "test.db" None))
  = Raise (AttributeError "'NoneType' object has no attribute 'execute'") /\
  fst (rollback (new_handle "test.db" None))
  = Raise (AttributeError "'NoneType' object has no attribute 'execute'").
Proof. repeat split; vm_compute; reflexivity. Qed.

(** ** C10: only tables count *)

Lemma no_table_count (db : database) :
  forallb (fun e => negb (is_table e)) db = true -> count_tables db = 0.
Proof.
  unfold count_tables. induction db as [|e db IH]; [reflexivity|].
  cbn [forallb List.filter]. intros H. apply andb_true_iff in H as [He Hr].
  destruct (is_table e); [discriminate|]. exact (IH Hr).
Qed.

(** C10. Let a database hold no entry of type table (it may hold views,
    indexes or triggers).  On an open handle that sees it, [is_empty_db]
    returns true; and [__enter__] on a handle configured with a readable
    init script, for a file holding it, runs the catalog query and then
    hands the script to the engine again. *)
Theorem non_table_objects_do_not_count (db : database) :
  forallb (fun e => negb (is_table e)) db = true ->
  (forall s, handle_open s = true -> visible s = db ->
             fst (is_empty_db s) = Ret true) /\
  (forall s name text,
     init_script_file_name (self s) = Some name ->
     truthy_str (Some name) = true ->
     db_file_name (self s) ∉ w_denied (world s) ->
     disk (world s) (db_file_name (self s)) = db ->
     w_texts (world s) !! name = Some text ->
     added (world s) (world (snd (__enter__ s)))
     = [ EvConnect (db_file_name (self s));
         EvCursor (length (w_conns (world s)));
         EvExecute (length (w_cursors (world s))) Q_COUNT_TABLES [];
         EvFetchone (length (w_cursors (world s)));
         EvOpenFile name;
         EvExecuteScript (length (w_cursors (world s))) text ]).
Proof.
  intros Hdb. pose proof (no_table_count _ Hdb) as H0. split.
  - intros s Ho Hv.
    rewrite (is_empty_db_open s Ho), Hv.
    rewrite bool_decide_eq_true_2 by assumption. reflexivity.
  - intros s name text Hs Ht Hd Hdisk Htext.
    destruct (enter_spec _ Hd) as (w' & rs & E & _ & L & _).
    rewrite E. cbn [snd world]. unfold added. rewrite L, drop_app_length.
    unfold enter_events. rewrite Hs, Ht, Hdisk.
    change (default "" (Some name)) with name.
    rewrite bool_decide_eq_true_2 by assumption. rewrite Htext. reflexivity.
Qed.

Lemma non_table_objects_do_not_count_witness :
  fst (is_empty_db (snd (__enter__ (new_handle "test.db" (Some "views.sql")))))
  = Ret true /\
  added (world views_state) (world (snd (__enter__ views_state)))
  = [ EvConnect "test.db"; EvCursor 1; EvExecute 1 Q_COUNT_TABLES [];
      EvFetchone 1; EvOpenFile "views.sql"; EvExecuteScript 1 views_sql ].
Proof.
  destruct (non_table_objects_do_not_count views_db eq_refl) as [Ha Hb].
  split.
  - (apply Ha; vm_compute; reflexivity).
  - (etransitivity; [apply (Hb views_state "views.sql" views_sql)|]).
    + (vm_compute; reflexivity).
    + (vm_compute; reflexivity).
    + (apply (bool_decide_unpack _); vm_compute; exact I).
    + (vm_compute; reflexivity).
    + (vm_compute; reflexivity).
    + (vm_compute; reflexivity).
Defined.

(** ** C2: what [__enter__] does, in order *)

Lemma enter_added (s : state) :
  db_file_name (self s) ∉ w_denied (world s) ->
  added (world s) (world (snd (__enter__ s))) = enter_events s.
Proof.
  intros Hd. destruct (enter_spec _ Hd) as (w' & rs & E & _ & L & _).
  rewrite E. cbn [snd world]. unfold added. rewrite L. apply drop_app_length.
Qed.

(** C2, as the code has it.  When the connection can be made, the calls of
    [__enter__] are, in order: connect, take a cursor, then - only with an
    init script configured - the catalog query and its fetch, then - only on
    a database without tables - the read of the script file and the script
    itself.  When [__enter__] returns normally the handle is open; and if a
    script is configured and the database was empty, the whole script ran
    without error from the fresh session and the handle sees its result. *)
Theorem enter_order_and_bootstrap (s : state) :
  db_file_name (self s) ∉ w_denied (world s) ->
  added (world s) (world (snd (__enter__ s))) = enter_events s /\
  (fst (__enter__ s) = Ret tt ->
   handle_open (snd (__enter__ s)) = true /\
   (truthy_str (init_script_file_name (self s)) = true ->
    disk (world s) (db_file_name (self s)) = [] ->
    exists text σ',
      w_texts (world s) !! default "" (init_script_file_name (self s)) = Some text /\
      script_on text (fresh_session (world s) (db_file_name (self s))) = (None, σ') /\
      visible (snd (__enter__ s)) = current σ')).
Proof.
  intros Hd.
  destruct (enter_spec _ Hd) as (w' & rs & E & Hl & L & _).
  rewrite E. cbn [fst snd world]. split.
  - unfold added. rewrite L. apply drop_app_length.
  - intros Hret.
    destruct (linked_handle_open {| self := entered s; world := w' |}
                _ _ _ _ _ eq_refl eq_refl Hl) as [Ho Hv].
    split; [exact Ho|]. intros Ht Hnew.
    rewrite Hv. revert Hret. unfold enter_outcome. rewrite Ht.
    change (current (fresh_session (world s) (db_file_name (self s))))
      with (disk (world s) (db_file_name (self s))).
    rewrite Hnew. cbn [count_tables List.filter length].
    rewrite bool_decide_eq_true_2 by reflexivity.
    destruct (w_texts (world s) !! default "" (init_script_file_name (self s)))
      as [text|]; [|discriminate].
    destruct (script_on text (fresh_session (world s) (db_file_name (self s))))
      as [[err|] σ'] eqn:Hs; [discriminate|].
    intros _. exists text, σ'. auto.
Qed.

Lemma enter_order_and_bootstrap_witness :
  added (world (new_handle "test.db" (Some "init.sql")))
        (world (snd (__enter__ (new_handle "test.db" (Some "init.sql")))))
  = [ EvConnect "test.db"; EvCursor 0; EvExecute 0 Q_COUNT_TABLES [];
      EvFetchone 0; EvOpenFile "init.sql"; EvExecuteScript 0 init_sql ] /\
  handle_open (snd (__enter__ (new_handle "test.db" (Some "init.sql")))) = true /\
  exists text σ',
    w_texts example_world !! "init.sql" = Some text /\
    script_on text (fresh_session example_world "test.db") = (None, σ') /\
    visible (snd (__enter__ (new_handle "test.db" (Some "init.sql")))) = current σ'.
Proof.
  destruct (enter_order_and_bootstrap (new_handle "test.db" (Some "init.sql")))
    as [Hlog Hrest].
  - apply (bool_decide_unpack _). vm_compute. exact I.
  - destruct Hrest as [Ho Hboot]; [vm_compute; reflexivity|].
    split; [|split].
    + etransitivity; [exact Hlog|vm_compute; reflexivity].
    + exact Ho.
    + apply Hboot; vm_compute; reflexivity.
Defined.

(** Without an init script the catalog query is not made. *)
Lemma enter_without_script_skips_the_check :
  fst (__enter__ (new_handle "test.db" None)) = Ret tt /\
  added (world (new_handle "test.db" None))
        (world (snd (__enter__ (new_handle "test.db" None))))
  = [EvConnect "test.db"; EvCursor 0] /\
  ~ In (EvExecute 0 Q_COUNT_TABLES [])
       (added (world (new_handle "test.db" None))
              (world (snd (__enter__ (new_handle "test.db" None))))).
Proof.
  assert (H : added (world (new_handle "test.db" None))
                (world (snd (__enter__ (new_handle "test.db" None))))
              = [EvConnect "test.db"; EvCursor 0]) by (vm_compute; reflexivity).
  split; [vm_compute; reflexivity|]. split; [exact H|].
  rewrite H. intros [X|[X|[]]]; discriminate X.
Qed.

(** ** C3: the pragma constants *)

Lemma sql_received_app a b :
  sql_received (a ++ b) = sql_received a ++ sql_received b.
Proof. unfold sql_received. rewrite map_app, concat_app. reflexivity. Qed.

(** C3, as the code has it.  The six pragma statements are what the two
    constants [PRAGMAS] (four of them) and [PRAGMAS_PER_CONNECTION] (two)
    spell, and no method submits these constants: the only texts
    [__enter__] hands to the engine are the catalog query, when an init
    script is configured, and the text of that script, when the database
    has no table. *)
Theorem enter_submits_no_pragma (s : state) :
  db_file_name (self s) ∉ w_denied (world s) ->
  statements_of PRAGMAS ++ statements_of PRAGMAS_PER_CONNECTION
  = recognized_pragmas /\
  sql_received (added (world s) (world (snd (__enter__ s))))
  = if truthy_str (init_script_file_name (self s)) then
      Q_COUNT_TABLES ::
      if bool_decide (count_tables (disk (world s) (db_file_name (self s))) = 0)
      then match w_texts (world s) !! default "" (init_script_file_name (self s)) with
           | Some text => [text]
           | None => []
           end
      else []
    else [].
Proof.
  intros Hd. split; [vm_compute; reflexivity|].
  rewrite (enter_added s Hd).
  unfold enter_events.
  destruct (truthy_str (init_script_file_name (self s))); [|reflexivity].
  destruct (bool_decide _); [|reflexivity].
  destruct (w_texts (world s) !! _); reflexivity.
Qed.

Lemma enter_submits_no_pragma_witness :
  sql_received
    (added (world (new_handle "test.db" (Some "init.sql")))
           (world (snd (__enter__ (new_handle "test.db" (Some "init.sql"))))))
  = [Q_COUNT_TABLES; init_sql].
Proof.
  etransitivity.
  - apply (enter_submits_no_pragma (new_handle "test.db" (Some "init.sql"))).
    apply (bool_decide_unpack _). vm_compute. exact I.
  - vm_compute. reflexivity.
Defined.

(** A successful open during which the engine receives no pragma. *)
Lemma enter_applies_no_pragma :
  fst (__enter__ (new_handle "test.db" None)) = Ret tt /\
  ~ Forall (fun p => In p (statements_received
                             (added (world (new_handle "test.db" None))
                                    (world (snd (__enter__ (new_handle "test.db" None)))))))
           recognized_pragmas.
Proof.
  split; [vm_compute; reflexivity|].
  assert (H : statements_received
                (added (world (new_handle "test.db" None))
                       (world (snd (__enter__ (new_handle "test.db" None)))))
              = []) by (vm_compute; reflexivity).
  rewrite H. intros HF. inversion HF as [|p l Hp _]. exact Hp.
Qed.

(** ** C4: a failing init script *)

Lemma enter_events_no_close (s : state) :
  List.filter is_connection_close (enter_events s) = [].
Proof.
  unfold enter_events.
  destruct (truthy_str (init_script_file_name (self s))); [|reflexivity].
  destruct (bool_decide _); [|reflexivity].
  destruct (w_texts (world s) !! _); reflexivity.
Qed.

(** C4, as the code has it.  [__enter__] has no handler: when it raises
    after the connection was made (script unreadable, script statement
    failing), no close call is made; the handle keeps the connection and the
    cursor it has just been given, both open in the engine.  The connection
    is released by a later [__exit__]. *)
Theorem failed_enter_leaves_handle_open (s : state) (e : exn) :
  db_file_name (self s) ∉ w_denied (world s) ->
  fst (__enter__ s) = Raise e ->
  connection (self (snd (__enter__ s))) = Some (length (w_conns (world s))) /\
  handle_open (snd (__enter__ s)) = true /\
  conn_is_open (world (snd (__enter__ s))) (length (w_conns (world s))) = true /\
  List.filter is_connection_close
    (added (world s) (world (snd (__enter__ s)))) = [] /\
  conn_is_open (world (snd (__exit__ (snd (__enter__ s)))))
    (length (w_conns (world s))) = false /\
  match w_texts (world s) !! default "" (init_script_file_name (self s)) with
  | Some text =>
      fst (script_on text (fresh_session (world s) (db_file_name (self s))))
      = Some e
  | None => e = FileNotFoundError (default "" (init_script_file_name (self s)))
  end.
Proof.
  intros Hd He.
  rewrite (enter_added s Hd), enter_events_no_close.
  destruct (enter_spec _ Hd) as (w' & rs & E & Hl & _).
  rewrite E in He |- *. cbn [fst snd self world connection entered] in He |- *.
  destruct (linked_handle_open {| self := entered s; world := w' |}
              _ _ _ _ _ eq_refl eq_refl Hl) as [Ho _].
  split; [reflexivity|]. split; [exact Ho|].
  split; [|split; [reflexivity|split]].
  - destruct Hl as (kc & cc & [H1 H2 _ _ _] & _).
    unfold conn_is_open. rewrite H1. exact H2.
  - destruct (exit_spec {| self := entered s; world := w' |} (or_introl Ho))
      as (w'' & E' & _ & _ & O & _).
    rewrite E'. exact O.
  - revert He. unfold enter_outcome.
    destruct (truthy_str (init_script_file_name (self s))); [|discriminate].
    destruct (bool_decide _); [|discriminate].
    destruct (w_texts (world s) !! _) as [text|];
      [|cbn [fst]; intros He; injection He; auto].
    destruct (script_on text _) as [[err|] σ']; cbn [fst raise_or];
      intros He; [injection He; intros ->; reflexivity|discriminate].
Qed.

Lemma failed_enter_leaves_handle_open_witness :
  connection (self (snd (__enter__ (new_handle "test.db" (Some "bad.sql")))))
  = Some 0 /\
  handle_open (snd (__enter__ (new_handle "test.db" (Some "bad.sql")))) = true.
Proof.
  destruct (failed_enter_leaves_handle_open
              (new_handle "test.db" (Some "bad.sql"))
              (OperationalError "no such table: missing"))
    as (Hc & Ho & _).
  - apply (bool_decide_unpack _). vm_compute. exact I.
  - vm_compute. reflexivity.
  - split; [exact Hc|exact Ho].
Defined.

(** An open that fails in the init script and leaves its connection open. *)
Lemma failed_enter_leaks_connection :
  fst (__enter__ (new_handle "test.db" (Some "bad.sql")))
  = Raise (OperationalError "no such table: missing") /\
  length (w_conns (world (new_handle "test.db" (Some "bad.sql")))) = 0 /\
  conn_is_open (world (snd (__enter__ (new_handle "test.db" (Some "bad.sql"))))) 0
  = true.
Proof. repeat split; vm_compute; reflexivity. Qed.

(** ** C1: when the init script runs *)

Lemma count_script_runs_app a b :
  count_script_runs (a ++ b) = count_script_runs a + count_script_runs b.
Proof. unfold count_script_runs. rewrite List.filter_app, length_app. reflexivity. Qed.

Lemma exit_events_no_script (s : state) : count_script_runs (exit_events s) = 0.
Proof.
  unfold exit_events. destruct (cursor (self s)), (connection (self s)); reflexivity.
Qed.

Lemma disk_in_memory w f : in_memory f = true -> count_tables (disk w f) = 0.
Proof. intros H. unfold disk. rewrite H. reflexivity. Qed.

(** Opening a database that has a table: the script is not run and the
    committed contents are as before. *)
Lemma enter_initialised (s : state) :
  db_file_name (self s) ∉ w_denied (world s) ->
  count_tables (disk (world s) (db_file_name (self s))) <> 0 ->
  exists w' evs,
    __enter__ s = (Ret tt, {| self := entered s; world := w' |}) /\
    w_log w' = w_log (world s) ++ evs /\ count_script_runs evs = 0 /\
    w_denied w' = w_denied (world s) /\
    disk w' (db_file_name (self s)) = disk (world s) (db_file_name (self s)) /\
    handle_open {| self := entered s; world := w' |} = true.
Proof.
  intros Hd Hn.
  destruct (enter_spec _ Hd) as (w' & rs & E & Hl & L & _ & D & _).
  assert (Hm : in_memory (db_file_name (self s)) = false).
  { destruct (in_memory (db_file_name (self s))) eqn:Hm; [|reflexivity].
    exfalso. apply Hn. apply disk_in_memory. exact Hm. }
  assert (Hout : enter_outcome s
                 = (Ret tt, fresh_session (world s) (db_file_name (self s)))).
  { unfold enter_outcome.
    change (current (fresh_session (world s) (db_file_name (self s))))
      with (disk (world s) (db_file_name (self s))).
    rewrite bool_decide_eq_false_2 by assumption.
    destruct (truthy_str _); reflexivity. }
  rewrite Hout in E, Hl. cbn [fst snd] in E, Hl.
  exists w', (enter_events s). repeat split; try assumption.
  - unfold enter_events. rewrite bool_decide_eq_false_2 by assumption.
    destruct (truthy_str _); reflexivity.
  - rewrite (linked_disk _ _ _ _ _ _ Hl Hm). reflexivity.
  - exact (proj1 (linked_handle_open {| self := entered s; world := w' |}
                    _ _ _ _ _ eq_refl eq_refl Hl)).
Qed.

Lemma exit_keeps_disk (s : state) :
  handle_open s = true \/ handle_closed s = true ->
  exists w' evs,
    __exit__ s = (Ret tt, {| self := exited s; world := w' |}) /\
    w_log w' = w_log (world s) ++ evs /\ count_script_runs evs = 0 /\
    w_denied w' = w_denied (world s) /\
    forall f, disk w' f = disk (world s) f.
Proof.
  intros Hinv.
  destruct (exit_spec s Hinv) as (w' & E & (L & _ & D & _) & Fi & _).
  exists w', (exit_events s). repeat split; try assumption.
  - apply exit_events_no_script.
  - intros f. unfold disk. rewrite Fi. reflexivity.
Qed.

Lemma reopen_initialised (n : nat) : forall s,
  handle_open s = true \/ handle_closed s = true ->
  db_file_name (self s) ∉ w_denied (world s) ->
  count_tables (disk (world s) (db_file_name (self s))) <> 0 ->
  exists s' evs,
    reopen n s = (Ret tt, s') /\
    w_log (world s') = w_log (world s) ++ evs /\ count_script_runs evs = 0 /\
    disk (world s') (db_file_name (self s))
    = disk (world s) (db_file_name (self s)).
Proof.
  induction n as [|n IH]; intros s Hinv Hd Hn.
  - exists s, []. cbn [reopen]. unfold ret. rewrite app_nil_r. auto.
  - destruct (exit_keeps_disk s Hinv) as (w1 & e1 & E1 & L1 & N1 & D1 & K1).
    set (s1 := {| self := exited s; world := w1 |}) in *.
    assert (Hd1 : db_file_name (self s1) ∉ w_denied (world s1)).
    { cbn [s1 self world exited db_file_name]. rewrite D1. exact Hd. }
    assert (Hn1 : count_tables (disk (world s1) (db_file_name (self s1))) <> 0).
    { cbn [s1 self world exited db_file_name]. rewrite K1. exact Hn. }
    destruct (enter_initialised s1 Hd1 Hn1)
      as (w2 & e2 & E2 & L2 & N2 & D2 & K2 & O2).
    set (s2 := {| self := entered s1; world := w2 |}) in *.
    assert (Hd2 : db_file_name (self s2) ∉ w_denied (world s2)).
    { cbn [s2 self world entered db_file_name]. rewrite D2. exact Hd1. }
    assert (Hn2 : count_tables (disk (world s2) (db_file_name (self s2))) <> 0).
    { cbn [s2 self world entered db_file_name]. rewrite K2. exact Hn1. }
    destruct (IH s2 (or_introl O2) Hd2 Hn2) as (s3 & e3 & E3 & L3 & N3 & K3).
    exists s3, (e1 ++ e2 ++ e3). split; [|split; [|split]].
    + cbn [reopen]. unfold bind at 1. rewrite E1.
      unfold bind at 1. rewrite E2. exact E3.
    + rewrite L3. cbn [s2 world]. rewrite L2. cbn [s1 world]. rewrite L1.
      rewrite <- !app_assoc. reflexivity.
    + rewrite !count_script_runs_app, N1, N2, N3. reflexivity.
    + cbn [s2 s1 self world entered exited db_file_name] in K3, K2.
      rewrite K3, K2, K1. reflexivity.
Qed.

(** C1, as the code has it.  One [__enter__] hands the init script to the
    engine once if a script is configured, the database has no table at
    that moment and the script file can be read, and not at all otherwise
    (so a database that has, or has again, no table is initialised again).
    A database with at least one table is not initialised again however
    often the handle is opened, closed and reopened: every call returns,
    the script is never run and the committed contents stay.  And on the
    test database: three rows from the script, close, reopen, one more
    row, four rows. *)
Theorem init_script_runs_iff_no_table :
  (forall s,
     db_file_name (self s) ∉ w_denied (world s) ->
     count_script_runs (added (world s) (world (snd (__enter__ s))))
     = if truthy_str (init_script_file_name (self s))
          && bool_decide (count_tables (disk (world s) (db_file_name (self s))) = 0)
          && bool_decide (is_Some (w_texts (world s)
                                     !! default "" (init_script_file_name (self s))))
       then 1 else 0) /\
  (forall n s,
     db_file_name (self s) ∉ w_denied (world s) ->
     count_tables (disk (world s) (db_file_name (self s))) <> 0 ->
     fst ((__enter__ ;;; reopen n) s) = Ret tt /\
     count_script_runs
       (added (world s) (world (snd ((__enter__ ;;; reopen n) s)))) = 0 /\
     disk (world (snd ((__enter__ ;;; reopen n) s))) (db_file_name (self s))
     = disk (world s) (db_file_name (self s))) /\
  fst (reopening_scenario (new_handle "test.db" (Some "init.sql")))
  = Ret (VInt 4).
Proof.
  split; [|split].
  - intros s Hd. rewrite (enter_added s Hd). unfold enter_events.
    destruct (truthy_str (init_script_file_name (self s))); [|reflexivity].
    destruct (bool_decide (count_tables _ = 0)); [|reflexivity].
    destruct (w_texts (world s) !! _) as [text|] eqn:Ht.
    + rewrite bool_decide_eq_true_2 by eauto. reflexivity.
    + rewrite bool_decide_eq_false_2 by (intros [x Hx]; discriminate). reflexivity.
  - intros n s Hd Hn.
    destruct (enter_initialised s Hd Hn)
      as (w1 & e1 & E1 & L1 & N1 & D1 & K1 & O1).
    set (s1 := {| self := entered s; world := w1 |}) in *.
    assert (Hd1 : db_file_name (self s1) ∉ w_denied (world s1)).
    { cbn [s1 self world entered db_file_name]. rewrite D1. exact Hd. }
    assert (Hn1 : count_tables (disk (world s1) (db_file_name (self s1))) <> 0).
    { cbn [s1 self world entered db_file_name]. rewrite K1. exact Hn. }
    destruct (reopen_initialised n s1 (or_introl O1) Hd1 Hn1)
      as (s2 & e2 & E2 & L2 & N2 & K2).
    assert (E : (__enter__ ;;; reopen n) s = (Ret tt, s2)).
    { unfold bind. rewrite E1. exact E2. }
    rewrite E. cbn [fst snd]. split; [reflexivity|]. split.
    + unfold added. rewrite L2. cbn [s1 world]. rewrite L1, <- app_assoc.
      rewrite drop_app_length, count_script_runs_app, N1, N2. reflexivity.
    + cbn [s1 self world entered db_file_name] in K2. rewrite K2, K1. reflexivity.
  - vm_compute. reflexivity.
Qed.

Lemma init_script_runs_iff_no_table_witness :
  count_script_runs
    (added (world (new_handle "test.db" (Some "init.sql")))
           (world (snd (__enter__ (new_handle "test.db" (Some "init.sql"))))))
  = 1 /\
  count_script_runs
    (added (world (snd ((__enter__ ;;; __exit__)
                          (new_handle "test.db" (Some "init.sql")))))
           (world (snd ((__enter__ ;;; reopen 3)
                          (snd ((__enter__ ;;; __exit__)
                                  (new_handle "test.db" (Some "init.sql"))))))))
  = 0.
Proof.
  destruct init_script_runs_iff_no_table as (Hrun & Hkeep & _).
  split.
  - etransitivity.
    + apply Hrun. apply (bool_decide_unpack _). vm_compute. exact I.
    + vm_compute. reflexivity.
  - apply Hkeep.
    + apply (bool_decide_unpack _). vm_compute. exact I.
    + apply (bool_decide_unpack _). vm_compute. exact I.
Defined.

(** The script of the test suite run twice on one database file, the table
    having been dropped in between. *)
Lemma init_script_runs_twice :
  fst (drop_and_reopen (new_handle "test.db" (Some "init.sql"))) = Ret tt /\
  ~ count_script_runs
      (w_log (world (snd (drop_and_reopen
                            (new_handle "test.db" (Some "init.sql")))))) <= 1.
Proof.
  split; [vm_compute; reflexivity|].
  assert (H : count_script_runs
                (w_log (world (snd (drop_and_reopen
                                      (new_handle "test.db" (Some "init.sql"))))))
              = 2) by (vm_compute; reflexivity).
  rewrite H. lia.
Qed.

(** * Further properties of the class *)

(** ** Sessions under the methods *)

Lemma linked_session s k c f σ rs :
  connection (self s) = Some k -> cursor (self s) = Some c ->
  linked (world s) k c f σ rs ->
  session_of s = Some σ /\ rows_of s = rs.
Proof.
  intros Hk Hc (kc & cc & [H1 H2 H3 H4 H5] & Hf & Hl & Hr).
  unfold session_of, rows_of. rewrite Hk, Hc, H1, H3, Hl, Hr. auto.
Qed.

Lemma run_query_linked s k c f σ rs sql :
  cursor (self s) = Some c ->
  linked (world s) k c f σ rs ->
  exists w',
    run_query sql s
    = (raise_or (fst (fst (execute_on sql [] σ rs))) tt,
       {| self := self s; world := w' |}) /\
    linked w' k c f (snd (fst (execute_on sql [] σ rs)))
                    (snd (execute_on sql [] σ rs)) /\
    frame (world s) w' [EvExecute c sql []].
Proof.
  intros Hc Hl.
  destruct (Cursor_execute_linked _ _ _ _ _ _ sql [] Hl) as (w1 & E1 & Hl1 & Hf1).
  exists w1. split; [|split; assumption].
  unfold run_query. unfold bind at 1, gets at 1. rewrite Hc.
  unfold bind at 1, attr, ret at 1. unfold bind at 1, lift at 1. rewrite E1.
  destruct (fst (fst (execute_on sql [] σ rs))); reflexivity.
Qed.

(** What a query method does to the session of an open handle. *)
Lemma run_query_open s sql :
  handle_open s = true ->
  exists σ,
    session_of s = Some σ /\
    fst (run_query sql s)
    = raise_or (fst (fst (execute_on sql [] σ (rows_of s)))) tt /\
    session_of (snd (run_query sql s))
    = Some (snd (fst (execute_on sql [] σ (rows_of s)))) /\
    rows_of (snd (run_query sql s)) = snd (execute_on sql [] σ (rows_of s)) /\
    handle_open (snd (run_query sql s)) = true.
Proof.
  intros Ho.
  destruct (handle_open_linked _ Ho) as (k & c & f & σ & rs & Hk & Hc & Hl & Hv).
  destruct (linked_session _ _ _ _ _ _ Hk Hc Hl) as [Hs Hr].
  destruct (run_query_linked _ _ _ _ _ _ sql Hc Hl) as (w' & E & Hl' & _).
  exists σ. rewrite Hr, E. cbn [fst snd].
  destruct (linked_session {| self := self s; world := w' |} _ _ _ _ _ Hk Hc Hl')
    as [Hs' Hr'].
  destruct (linked_handle_open {| self := self s; world := w' |} _ _ _ _ _ Hk Hc Hl')
    as [Ho' _].
  auto.
Qed.


Lemma execute_on_commit σ rs :
  execute_on Q_COMMIT [] σ rs
  = match s_txn σ with
    | Some d => (None, {| s_disk := d; s_txn := None; s_pragmas := s_pragmas σ |}, [])
    | None => (Some (OperationalError "cannot commit - no transaction is active"),
               σ, rs)
    end.
Proof.
  unfold execute_on.
  assert (Hp : prepare Q_COMMIT [] = inr (Some SCommit)) by (vm_compute; reflexivity).
  rewrite Hp.
  rewrite begin_not_needed by reflexivity. cbn [exec].
  destruct (s_txn σ); reflexivity.
Qed.

Lemma execute_on_rollback σ rs :
  execute_on Q_ROLLBACK [] σ rs
  = match s_txn σ with
    | Some _ => (None, {| s_disk := s_disk σ; s_txn := None;
                          s_pragmas := s_pragmas σ |}, [])
    | None => (Some (OperationalError "cannot rollback - no transaction is active"),
               σ, rs)
    end.
Proof.
  unfold execute_on.
  assert (Hp : prepare Q_ROLLBACK [] = inr (Some SRollback)) by (vm_compute; reflexivity).
  rewrite Hp.
  rewrite begin_not_needed by reflexivity. cbn [exec].
  destruct (s_txn σ); reflexivity.
Qed.

(** ** [vacuum], [commit], [rollback] on an open handle *)




(** A second cursor of the connection with a query half read is a statement
    in progress: the state is outside the property above. *)
Example second_cursor_mid_read_is_not_idle :
  others_idle
    (snd ((c2 <~ lift (Connection_cursor 0) ;;
           lift (Cursor_execute c2 "SELECT * FROM test_points" []) ;;;
           lift (Cursor_fetchone c2))
            opened_state))
  = false /\
  others_idle opened_state = true /\
  others_idle selecting_state = true.
Proof. repeat split; vm_compute; reflexivity. Qed.

(** X2. On an open handle [commit] with a transaction open makes the
    working copy the committed contents and ends the transaction; with no
    transaction open it raises the engine's error and changes nothing. *)
Theorem commit_makes_working_copy_durable (s : state) :
  handle_open s = true ->
  exists σ,
    session_of s = Some σ /\
    match s_txn σ with
    | Some d =>
        fst (commit s) = Ret tt /\
        session_of (snd (commit s))
        = Some {| s_disk := d; s_txn := None; s_pragmas := s_pragmas σ |}
    | None =>
        fst (commit s)
        = Raise (OperationalError "cannot commit - no transaction is active") /\
        session_of (snd (commit s)) = Some σ
    end.
Proof.
  intros Ho.
  destruct (run_query_open s Q_COMMIT Ho) as (σ & Hs & Hr & Hs' & _ & _).
  exists σ. unfold commit. rewrite Hr, Hs', execute_on_commit.
  destruct (s_txn σ); auto.
Qed.

Lemma commit_makes_working_copy_durable_witness :
  exists σ,
    session_of inserting_state = Some σ /\
    match s_txn σ with
    | Some d =>
        fst (commit inserting_state) = Ret tt /\
        session_of (snd (commit inserting_state))
        = Some {| s_disk := d; s_txn := None; s_pragmas := s_pragmas σ |}
    | None =>
        fst (commit inserting_state)
        = Raise (OperationalError "cannot commit - no transaction is active") /\
        session_of (snd (commit inserting_state)) = Some σ
    end.
Proof.
  apply (commit_makes_working_copy_durable inserting_state). vm_compute. reflexivity.
Defined.


(** X3. On an open handle [rollback] with a transaction open drops the
    working copy: the handle sees the committed contents again, which are
    unchanged; with no transaction open it raises the engine's error and
    changes nothing. *)
Theorem rollback_restores_committed (s : state) :
  handle_open s = true ->
  exists σ,
    session_of s = Some σ /\
    match s_txn σ with
    | Some _ =>
        fst (rollback s) = Ret tt /\
        session_of (snd (rollback s))
        = Some {| s_disk := s_disk σ; s_txn := None; s_pragmas := s_pragmas σ |} /\
        visible (snd (rollback s)) = s_disk σ
    | None =>
        fst (rollback s)
        = Raise (OperationalError "cannot rollback - no transaction is active") /\
        session_of (snd (rollback s)) = Some σ
    end.
Proof.
  intros Ho.
  destruct (handle_open_linked _ Ho) as (k & c & f & σ & rs & Hk & Hc & Hl & Hv).
  destruct (linked_session _ _ _ _ _ _ Hk Hc Hl) as [Hs Hr].
  destruct (run_query_linked _ _ _ _ _ _ Q_ROLLBACK Hc Hl) as (w' & E & Hl' & _).
  exists σ. split; [assumption|]. unfold rollback. rewrite E. cbn [fst snd].
  destruct (linked_session {| self := self s; world := w' |} _ _ _ _ _ Hk Hc Hl')
    as [Hs' _].
  destruct (linked_handle_open {| self := self s; world := w' |} _ _ _ _ _ Hk Hc Hl')
    as [_ Hv'].
  rewrite Hs', Hv', execute_on_rollback.
  destruct (s_txn σ); auto.
Qed.

Lemma rollback_restores_committed_witness :
  exists σ,
    session_of inserting_state = Some σ /\
    match s_txn σ with
    | Some _ =>
        fst (rollback inserting_state) = Ret tt /\
        session_of (snd (rollback inserting_state))
        = Some {| s_disk := s_disk σ; s_txn := None; s_pragmas := s_pragmas σ |} /\
        visible (snd (rollback inserting_state)) = s_disk σ
    | None =>
        fst (rollback inserting_state)
        = Raise (OperationalError "cannot rollback - no transaction is active") /\
        session_of (snd (rollback inserting_state)) = Some σ
    end.
Proof.
  apply (rollback_restores_committed inserting_state). vm_compute. reflexivity.
Defined.


(** ** [tables_names] *)

Lemma filter_master_names (db : database) :
  map (fun r => [cell 1 r])
      (List.filter (fun r => value_eqb (cell 0 r) (VStr "table"))
         (map master_row db))
  = map (fun e => [VStr (e_name e)]) (List.filter is_table db).
Proof.
  induction db as [|e db IH]; [reflexivity|].
  cbn [map List.filter]. unfold is_table at 1.
  change (cell 0 (master_row e)) with (VStr (type_name (e_type e))).
  unfold value_eqb at 1.
  destruct (e_type e); cbn [type_name]; case_bool_decide; try discriminate;
    try congruence; cbn [map]; rewrite IH; reflexivity.
Qed.

Lemma execute_on_tables σ rs :
  execute_on Q_TABLES [] σ rs
  = (None, σ, map (fun e => [VStr (e_name e)]) (List.filter is_table (current σ))).
Proof.
  unfold execute_on.
  assert (Hp : prepare Q_TABLES [] = inr (Some (SSelect q_tables)))
    by (vm_compute; reflexivity).
  rewrite Hp, begin_not_needed by reflexivity. cbn [exec].
  unfold run_select, q_tables, relation_of. cbn.
  rewrite filter_master_names. reflexivity.
Qed.

Lemma Cursor_fetchall_linked w k c f σ rs :
  linked w k c f σ rs ->
  exists w',
    Cursor_fetchall c w = (Ret rs, w') /\ linked w' k c f σ [] /\ frame w w' [].
Proof.
  intros Hl. pose proof Hl as (kc & cc & Hu & Hn & Hload & Hrows).
  destruct (linked_rows _ _ _ _ _ _ [] Hl) as (cc' & Hc' & Hl3 & Hf3).
  assert (cc' = cc) by (destruct Hu; congruence). subst cc'.
  eexists. split; [|split; [exact Hl3|exact Hf3]].
  unfold Cursor_fetchall. unfold bind at 1. rewrite (the_cursor_usable _ _ _ _ _ Hu).
  unfold bind at 1. rewrite (the_connection_usable _ _ _ _ _ Hu).
  unfold set_rows. mred. rewrite Hrows. reflexivity.
Qed.

Lemma names_of_rows (db : database) :
  map (cell 0) (map (fun e => [VStr (e_name e)]) (List.filter is_table db))
  = table_names_of db.
Proof. unfold table_names_of. rewrite map_map. reflexivity. Qed.

Lemma tables_names_linked s k c f σ rs :
  connection (self s) = Some k -> cursor (self s) = Some c ->
  linked (world s) k c f σ rs ->
  exists w',
    tables_names s = (Ret (table_names_of (current σ)),
                      {| self := self s; world := w' |}) /\
    linked w' k c f σ [].
Proof.
  intros Hk Hc Hl.
  destruct (Cursor_execute_linked _ _ _ _ _ _ Q_TABLES [] Hl) as (w1 & E1 & Hl1 & _).
  rewrite execute_on_tables in E1, Hl1. cbn [fst snd raise_or] in E1, Hl1.
  destruct (Cursor_fetchall_linked _ _ _ _ _ _ Hl1) as (w2 & E2 & Hl2 & _).
  exists w2. split; [|exact Hl2].
  unfold tables_names. unfold bind at 1, gets at 1. rewrite Hc.
  unfold bind at 1, attr, ret at 1. unfold bind at 1, lift at 1. rewrite E1.
  cbn [self world]. unfold bind at 1, lift at 1. cbn [self world]. rewrite E2.
  unfold ret. rewrite names_of_rows. reflexivity.
Qed.

(** X4. On an open handle [tables_names] returns the names of the catalog
    entries of type table, in catalog (creation) order and leaving out
    views, indexes and triggers; the session is as before and the cursor
    holds no rows afterwards. *)
Theorem tables_names_lists_tables (s : state) :
  handle_open s = true ->
  fst (tables_names s) = Ret (table_names_of (visible s)) /\
  session_of (snd (tables_names s)) = session_of s /\
  rows_of (snd (tables_names s)) = [] /\
  handle_open (snd (tables_names s)) = true.
Proof.
  intros Ho.
  destruct (handle_open_linked _ Ho) as (k & c & f & σ & rs & Hk & Hc & Hl & Hv).
  destruct (linked_session _ _ _ _ _ _ Hk Hc Hl) as [Hs _].
  destruct (tables_names_linked _ _ _ _ _ _ Hk Hc Hl) as (w' & E & Hl').
  rewrite E, Hv, Hs. cbn [fst snd].
  destruct (linked_session {| self := self s; world := w' |} _ _ _ _ _ Hk Hc Hl')
    as [Hs' Hr'].
  destruct (linked_handle_open {| self := self s; world := w' |} _ _ _ _ _ Hk Hc Hl')
    as [Ho' _].
  auto.
Qed.

Lemma tables_names_lists_tables_witness :
  fst (tables_names opened_state) = Ret (table_names_of (visible opened_state)) /\
  session_of (snd (tables_names opened_state)) = session_of opened_state /\
  rows_of (snd (tables_names opened_state)) = [] /\
  handle_open (snd (tables_names opened_state)) = true.
Proof. apply (tables_names_lists_tables opened_state). vm_compute. reflexivity. Defined.

Lemma no_names_no_tables (db : database) :
  table_names_of db = [] <-> count_tables db = 0.
Proof.
  unfold table_names_of, count_tables.
  destruct (List.filter is_table db); cbn; split; intros H;
    try reflexivity; discriminate.
Qed.

(** X5. On an open handle the two catalog queries agree: [is_empty_db]
    returns true exactly when [tables_names] returns the empty list, and
    the list [tables_names] returns has as many names as the count
    [is_empty_db] compares with zero. *)
Theorem is_empty_db_agrees_with_tables_names (s : state) :
  handle_open s = true ->
  (fst (is_empty_db s) = Ret true <-> fst (tables_names s) = Ret []) /\
  exists names,
    fst (tables_names s) = Ret names /\
    fst (is_empty_db s) = Ret (bool_decide (length names = 0)).
Proof.
  intros Ho.
  destruct (handle_open_linked _ Ho) as (k & c & f & σ & rs & Hk & Hc & Hl & Hv).
  destruct (tables_names_linked _ _ _ _ _ _ Hk Hc Hl) as (w' & E & _).
  rewrite (is_empty_db_open s Ho), E, Hv. cbn [fst]. split.
  - split.
    + intros H. injection H as H. apply bool_decide_eq_true_1 in H.
      f_equal. apply no_names_no_tables. exact H.
    + intros H. injection H as H. apply no_names_no_tables in H.
      rewrite bool_decide_eq_true_2 by assumption. reflexivity.
  - exists (table_names_of (current σ)). split; [reflexivity|].
    unfold table_names_of, count_tables. rewrite length_map. reflexivity.
Qed.

Lemma is_empty_db_agrees_with_tables_names_witness :
  (fst (is_empty_db opened_state) = Ret true
   <-> fst (tables_names opened_state) = Ret []) /\
  exists names,
    fst (tables_names opened_state) = Ret names /\
    fst (is_empty_db opened_state) = Ret (bool_decide (length names = 0)).
Proof.
  apply (is_empty_db_agrees_with_tables_names opened_state). vm_compute. reflexivity.
Defined.

(** ** The methods on a handle without cursor *)

(** X6. With the cursor field [None] (a handle never opened, or closed),
    every method that goes through the cursor raises the attribute error of
    [None] and leaves the object and the world exactly as they were: no call
    reaches the engine. *)
Theorem cursor_methods_need_open_handle (s : state) (item : string) (v : value) :
  cursor (self s) = None ->
  vacuum s = (Raise (no_cursor "execute"), s) /\
  tables_names s = (Raise (no_cursor "execute"), s) /\
  start_transaction s = (Raise (no_cursor "execute"), s) /\
  commit s = (Raise (no_cursor "execute"), s) /\
  rollback s = (Raise (no_cursor "execute"), s) /\
  __getitem__ item s = (Raise (no_cursor "execute"), s) /\
  __setitem__ item v s = (Raise (no_cursor "execute"), s) /\
  check s = (Raise (no_cursor "execute"), s).
Proof.
  intros Hc.
  unfold vacuum, start_transaction, commit, rollback, run_query, tables_names,
    check, __getitem__, __setitem__, no_cursor.
  mred. rewrite Hc. cbn. repeat split; reflexivity.
Qed.

Lemma cursor_methods_need_open_handle_witness :
  vacuum (new_handle "test.db" None)
  = (Raise (no_cursor "execute"), new_handle "test.db" None) /\
  tables_names (new_handle "test.db" None)
  = (Raise (no_cursor "execute"), new_handle "test.db" None).
Proof.
  destruct (cursor_methods_need_open_handle (new_handle "test.db" None)
              "journal_mode" VNone eq_refl) as (H1 & H2 & _).
  split; assumption.
Defined.

(** ** [execute_file] *)

(** X7. [execute_file] opens the file before it touches the cursor: for a
    file that does not exist it raises FileNotFoundError on any handle,
    open or not; for a file that exists it raises the attribute error of
    the [None] cursor on a handle without cursor.  In both cases the only
    call made is the attempt to open the file: nothing reaches the
    engine. *)
Theorem execute_file_fails_before_the_engine (s : state) (name : string) :
  (w_texts (world s) !! name = None ->
   execute_file name s
   = (Raise (FileNotFoundError name),
      {| self := self s; world := record (EvOpenFile name) (world s) |})) /\
  (is_Some (w_texts (world s) !! name) -> cursor (self s) = None ->
   execute_file name s
   = (Raise (no_cursor "executescript"),
      {| self := self s; world := record (EvOpenFile name) (world s) |})).
Proof.
  split.
  - intros Hn. unfold execute_file. unfold bind at 1, lift at 1.
    rewrite read_file_run, Hn. reflexivity.
  - intros [text Ht] Hc. unfold execute_file. unfold bind at 1, lift at 1.
    rewrite read_file_run, Ht. unfold bind at 1, gets at 1. cbn [self world].
    rewrite Hc. reflexivity.
Qed.

Lemma execute_file_fails_before_the_engine_witness :
  execute_file "nowhere.sql" opened_state
  = (Raise (FileNotFoundError "nowhere.sql"),
     {| self := self opened_state;
        world := record (EvOpenFile "nowhere.sql") (world opened_state) |}) /\
  execute_file "init.sql" (new_handle "test.db" None)
  = (Raise (no_cursor "executescript"),
     {| self := self (new_handle "test.db" None);
        world := record (EvOpenFile "init.sql") (world (new_handle "test.db" None)) |}).
Proof.
  split.
  - apply (proj1 (execute_file_fails_before_the_engine opened_state "nowhere.sql")).
    vm_compute. reflexivity.
  - apply (proj2 (execute_file_fails_before_the_engine
                    (new_handle "test.db" None) "init.sql")).
    + exists init_sql. vm_compute. reflexivity.
    + reflexivity.
Defined.



(** ** [check] *)

(** X9. On an open handle [check] raises the engine's syntax error at its
    first indexed read: the only call it makes is the rejected PRAGMA text
    for foreign_key_check, and the read of integrity_check is never
    reached. *)
Theorem check_stops_at_its_first_read (s : state) :
  handle_open s = true ->
  exists c,
    cursor (self s) = Some c /\
    check s
    = (Raise (OperationalError "syntax error"),
       {| self := self s;
          world := record (EvExecute c "PRAGMA ?" [VStr "foreign_key_check"])
                     (world s) |}).
Proof.
  intros Ho.
  destruct (handle_open_usable _ Ho) as (k & c & kc & cc & Hk & Hc & Hu).
  exists c. split; [assumption|].
  unfold check, __getitem__. unfold bind at 1. unfold bind at 1, gets at 1.
  rewrite Hc. unfold bind at 1, attr, ret at 1. unfold bind at 1, lift at 1.
  rewrite (Cursor_execute_rejected _ _ _ _ _ _ _ _ Hu
             (prepare_pragma_get "foreign_key_check")).
  reflexivity.
Qed.

Lemma check_stops_at_its_first_read_witness :
  exists c,
    cursor (self opened_state) = Some c /\
    check opened_state
    = (Raise (OperationalError "syntax error"),
       {| self := self opened_state;
          world := record (EvExecute c "PRAGMA ?" [VStr "foreign_key_check"])
                     (world opened_state) |}).
Proof. apply (check_stops_at_its_first_read opened_state). vm_compute. reflexivity. Defined.

(** ** The shared cursor *)

(** X10. [is_empty_db] runs on the one cursor of the handle: on an open
    handle it leaves the session as it was, but whatever result rows the
    cursor still held are gone afterwards. *)
Theorem is_empty_db_uses_the_shared_cursor (s : state) :
  handle_open s = true ->
  session_of (snd (is_empty_db s)) = session_of s /\
  rows_of (snd (is_empty_db s)) = [] /\
  handle_open (snd (is_empty_db s)) = true.
Proof.
  intros Ho.
  destruct (handle_open_linked _ Ho) as (k & c & f & σ & rs & Hk & Hc & Hl & Hv).
  destruct (linked_session _ _ _ _ _ _ Hk Hc Hl) as [Hs _].
  destruct (is_empty_db_linked _ _ _ _ _ _ Hc Hl) as (w' & E & Hl' & _).
  rewrite E, Hs. cbn [snd].
  destruct (linked_session {| self := self s; world := w' |} _ _ _ _ _ Hk Hc Hl')
    as [Hs' Hr'].
  destruct (linked_handle_open {| self := self s; world := w' |} _ _ _ _ _ Hk Hc Hl')
    as [Ho' _].
  auto.
Qed.

Lemma is_empty_db_uses_the_shared_cursor_witness :
  length (rows_of selecting_state) = 3 /\
  session_of (snd (is_empty_db selecting_state)) = session_of selecting_state /\
  rows_of (snd (is_empty_db selecting_state)) = [] /\
  handle_open (snd (is_empty_db selecting_state)) = true.
Proof.
  split; [vm_compute; reflexivity|].
  apply (is_empty_db_uses_the_shared_cursor selecting_state). vm_compute. reflexivity.
Defined.

(** ** Closing does not commit *)

Lemma enter_plain_outcome (s : state) :
  truthy_str (init_script_file_name (self s)) = false \/
  count_tables (disk (world s) (db_file_name (self s))) <> 0 ->
  enter_outcome s = (Ret tt, fresh_session (world s) (db_file_name (self s))).
Proof.
  intros H. unfold enter_outcome.
  change (current (fresh_session (world s) (db_file_name (self s))))
    with (disk (world s) (db_file_name (self s))).
  destruct H as [H|H].
  - rewrite H. reflexivity.
  - rewrite bool_decide_eq_false_2 by assumption.
    destruct (truthy_str _); reflexivity.
Qed.





(** ** Edge cases of [__enter__] *)

(** X12. When the path cannot be opened as a database, [__enter__] raises
    the engine's error before it assigns anything: the object is exactly as
    it was (a closed handle stays closed, an open one keeps its
    connection), no connection or cursor is created, and the only call made
    is the failed connect. *)
Theorem enter_fails_without_touching_the_handle (s : state) :
  db_file_name (self s) ∈ w_denied (world s) ->
  fst (__enter__ s) = Raise (OperationalError "unable to open database file") /\
  self (snd (__enter__ s)) = self s /\
  added (world s) (world (snd (__enter__ s))) = [EvConnect (db_file_name (self s))] /\
  w_conns (world (snd (__enter__ s))) = w_conns (world s) /\
  w_cursors (world (snd (__enter__ s))) = w_cursors (world s) /\
  handle_open (snd (__enter__ s)) = handle_open s.
Proof.
  intros Hd. rewrite (enter_denied s Hd). cbn [fst snd self world].
  repeat split; try reflexivity.
  apply (frame_added _ _ _ (frame_record _ _)).
Qed.

Lemma enter_fails_without_touching_the_handle_witness :
  fst (__enter__ (new_handle "/nowhere/test.db" None))
  = Raise (OperationalError "unable to open database file") /\
  self (snd (__enter__ (new_handle "/nowhere/test.db" None)))
  = self (new_handle "/nowhere/test.db" None).
Proof.
  destruct (enter_fails_without_touching_the_handle
              (new_handle "/nowhere/test.db" None)) as (H1 & H2 & _).
  - apply (bool_decide_unpack _). vm_compute. exact I.
  - split; assumption.
Defined.

(** X13. An init script name that is the empty string counts as no script:
    [__enter__] returns normally after connect and cursor alone, without
    the catalog query and without trying to open a file, and the handle
    sees the committed contents of the database. *)
Theorem empty_script_name_is_no_script (s : state) :
  init_script_file_name (self s) = Some "" ->
  db_file_name (self s) ∉ w_denied (world s) ->
  fst (__enter__ s) = Ret tt /\
  added (world s) (world (snd (__enter__ s)))
  = [EvConnect (db_file_name (self s)); EvCursor (length (w_conns (world s)))] /\
  handle_open (snd (__enter__ s)) = true /\
  visible (snd (__enter__ s)) = disk (world s) (db_file_name (self s)).
Proof.
  intros He Hd.
  rewrite (enter_added s Hd).
  destruct (enter_spec s Hd) as (w' & rs & E & Hl & _).
  rewrite enter_plain_outcome in E, Hl by (left; rewrite He; reflexivity).
  rewrite E. cbn [fst snd] in Hl |- *.
  destruct (linked_handle_open {| self := entered s; world := w' |}
              _ _ _ _ _ eq_refl eq_refl Hl) as [Ho Hv].
  split; [reflexivity|]. split; [|split; [exact Ho|exact Hv]].
  unfold enter_events. rewrite He. reflexivity.
Qed.

Lemma empty_script_name_is_no_script_witness :
  fst (__enter__ (new_handle "test.db" (Some ""))) = Ret tt /\
  handle_open (snd (__enter__ (new_handle "test.db" (Some "")))) = true.
Proof.
  destruct (empty_script_name_is_no_script (new_handle "test.db" (Some "")) eq_refl)
    as (H1 & _ & H2 & _).
  - apply (bool_decide_unpack _). vm_compute. exact I.
  - split; assumption.
Defined.

(** X14. A database in memory does not outlive its connection: on the
    location [":memory:"] every [__enter__] starts from the empty database
    whatever was done on the handle before, so a configured, readable init
    script is run at every open, and without a script the handle sees an
    empty database. *)
Theorem memory_database_starts_empty (s : state) :
  in_memory (db_file_name (self s)) = true ->
  db_file_name (self s) ∉ w_denied (world s) ->
  count_script_runs (added (world s) (world (snd (__enter__ s))))
  = (if truthy_str (init_script_file_name (self s))
        && bool_decide (is_Some (w_texts (world s)
                                   !! default "" (init_script_file_name (self s))))
     then 1 else 0) /\
  (truthy_str (init_script_file_name (self s)) = false ->
   fst (__enter__ s) = Ret tt /\ visible (snd (__enter__ s)) = []).
Proof.
  intros Hm Hd. split.
  - rewrite (enter_added s Hd). unfold enter_events.
    rewrite (disk_in_memory _ _ Hm).
    destruct (truthy_str (init_script_file_name (self s))); [|reflexivity].
    rewrite bool_decide_eq_true_2 by reflexivity.
    destruct (w_texts (world s) !! _) as [text|] eqn:Ht.
    + rewrite bool_decide_eq_true_2 by eauto. reflexivity.
    + rewrite bool_decide_eq_false_2 by (intros [x Hx]; discriminate). reflexivity.
  - intros Ht.
    destruct (enter_spec s Hd) as (w' & rs & E & Hl & _).
    rewrite enter_plain_outcome in E, Hl by (left; exact Ht).
    rewrite E. cbn [fst snd] in Hl |- *.
    destruct (linked_handle_open {| self := entered s; world := w' |}
                _ _ _ _ _ eq_refl eq_refl Hl) as [_ Hv].
    split; [reflexivity|]. rewrite Hv. unfold fresh_session, disk. rewrite Hm.
    reflexivity.
Qed.

Lemma memory_database_starts_empty_witness :
  count_script_runs
    (added (world (new_handle ":memory:" (Some "init.sql")))
           (world (snd (__enter__ (new_handle ":memory:" (Some "init.sql"))))))
  = 1 /\
  visible (snd (__enter__ (new_handle ":memory:" None))) = [].
Proof.
  split.
  - etransitivity.
    + apply (proj1 (memory_database_starts_empty
                      (new_handle ":memory:" (Some "init.sql")) eq_refl
                      ltac:(apply (bool_decide_unpack _); vm_compute; exact I))).
    + vm_compute. reflexivity.
  - apply (proj2 (memory_database_starts_empty
                    (new_handle ":memory:" None) eq_refl
                    ltac:(apply (bool_decide_unpack _); vm_compute; exact I))).
    reflexivity.
Defined.



(** ** Opening twice *)

Lemma opens_store w k kc σ :
  w_conns w !! k = Some kc -> opens (store k kc σ w) = opens w.
Proof.
  intros Hk. unfold opens, store.
  destruct (in_memory (c_name kc)); wsimpl;
    rewrite list_fmap_insert; wsimpl;
    apply list_insert_id; rewrite list_lookup_fmap, Hk; reflexivity.
Qed.

Lemma Cursor_execute_opens w c sql ps :
  opens (snd (Cursor_execute c sql ps w)) = opens w.
Proof.
  unfold Cursor_execute, the_cursor, the_connection, set_rows. mred. wsimpl.
  destruct (w_cursors w !! c) as [cc|]; [|reflexivity].
  destruct (cu_open cc); [|reflexivity]. wsimpl.
  destruct (w_conns w !! cu_conn cc) as [kc|] eqn:Hk; [|reflexivity].
  destruct (c_open kc); [|reflexivity].
  destruct (prepare sql ps) as [err|[st|]]; try reflexivity.
  destruct (exec st ps _) as [err|[σ' rs]]; [reflexivity|].
  cbn [snd]. unfold opens at 1. wsimpl.
  exact (opens_store (record (EvExecute c sql ps) w) _ _ σ' Hk).
Qed.

Lemma Cursor_executescript_opens w c text :
  opens (snd (Cursor_executescript c text w)) = opens w.
Proof.
  unfold Cursor_executescript, the_cursor, the_connection. mred. wsimpl.
  destruct (w_cursors w !! c) as [cc|]; [|reflexivity].
  destruct (cu_open cc); [|reflexivity]. wsimpl.
  destruct (w_conns w !! cu_conn cc) as [kc|] eqn:Hk; [|reflexivity].
  destruct (c_open kc); [|reflexivity].
  destruct (tokenize text) as [ts|].
  - destruct (exec_script _ _) as [[err|] σ']; cbn [snd];
      exact (opens_store (record (EvExecuteScript c text) w) _ _ σ' Hk).
  - cbn [snd]. exact (opens_store (record (EvExecuteScript c text) w) _ _ _ Hk).
Qed.

Lemma Cursor_fetchone_opens w c :
  opens (snd (Cursor_fetchone c w)) = opens w.
Proof.
  unfold Cursor_fetchone, the_cursor, the_connection, set_rows. mred. wsimpl.
  destruct (w_cursors w !! c) as [cc|]; [|reflexivity].
  destruct (cu_open cc); [|reflexivity]. wsimpl.
  destruct (w_conns w !! cu_conn cc) as [kc|]; [|reflexivity].
  destruct (c_open kc); [|reflexivity].
  destruct (cu_rows cc); reflexivity.
Qed.

Lemma Connection_cursor_opens w k :
  opens (snd (Connection_cursor k w)) = opens w.
Proof.
  unfold Connection_cursor, the_connection. mred. wsimpl.
  destruct (w_conns w !! k) as [kc|]; [|reflexivity].
  destruct (c_open kc); reflexivity.
Qed.

Lemma connect_opens w f :
  opens w `prefix_of` opens (snd (connect f w)).
Proof.
  unfold connect. mred. wsimpl.
  destruct (bool_decide (f ∈ w_denied w)); [reflexivity|].
  cbn [snd]. unfold opens. wsimpl.
  destruct (in_memory f); [|destruct (w_files w !! f)]; wsimpl;
    exists [true]; rewrite List.map_app; reflexivity.
Qed.

Lemma is_empty_db_opens s :
  opens (world (snd (is_empty_db s))) = opens (world s).
Proof.
  unfold is_empty_db. unfold bind at 1, gets at 1.
  destruct (cursor (self s)) as [c|]; [|reflexivity].
  unfold bind at 1, attr, ret at 1. unfold bind at 1, lift at 1.
  pose proof (Cursor_execute_opens (world s) c Q_COUNT_TABLES []) as H1.
  destruct (Cursor_execute c Q_COUNT_TABLES [] (world s)) as [[c'|e] w1];
    cbn [snd world] in H1 |- *; [|exact H1].
  unfold bind at 1, lift at 1. cbn [world].
  pose proof (Cursor_fetchone_opens w1 c') as H2.
  destruct (Cursor_fetchone c' w1) as [[r|e] w2];
    cbn [snd world] in H2 |- *; [|congruence].
  unfold bind, item0, ret, raise. destruct r as [[|v r]|]; cbn; congruence.
Qed.

Lemma execute_file_opens s name :
  opens (world (snd (execute_file name s))) = opens (world s).
Proof.
  unfold execute_file. unfold bind at 1, lift at 1. rewrite read_file_run.
  destruct (w_texts (world s) !! name) as [text|]; [|reflexivity].
  unfold bind at 1, gets at 1. cbn [self world].
  destruct (cursor (self s)) as [c|]; [|reflexivity].
  unfold bind at 1, attr, ret at 1. unfold lift. cbn [self world].
  pose proof (Cursor_executescript_opens (record (EvOpenFile name) (world s)) c text)
    as H1.
  destruct (Cursor_executescript c text _) as [r w1]. exact H1.
Qed.

(** [__enter__] only adds to the connections of the world: those that were
    there stay as they are, open or closed. *)
Lemma enter_opens s :
  opens (world s) `prefix_of` opens (world (snd (__enter__ s))).
Proof.
  unfold __enter__. unfold bind at 1, gets at 1. unfold bind at 1, lift at 1.
  pose proof (connect_opens (world s) (db_file_name (self s))) as H1.
  destruct (connect (db_file_name (self s)) (world s)) as [[k|e] w1];
    cbn [snd world] in H1 |- *; [|exact H1].
  unfold bind at 1, set_connection, modify at 1. unfold bind at 1, gets at 1.
  cbn [self world connection]. unfold bind at 1, attr, ret at 1.
  unfold bind at 1, lift at 1. cbn [self world].
  pose proof (Connection_cursor_opens w1 k) as H2.
  destruct (Connection_cursor k w1) as [[c|e] w2];
    cbn [snd world] in H2 |- *; [|rewrite H2; exact H1].
  unfold bind at 1, set_cursor, modify at 1. unfold bind at 1, gets at 1.
  cbn [self world init_script_file_name].
  destruct (truthy_str (init_script_file_name (self s)));
    [|cbn; rewrite H2; exact H1].
  unfold bind at 1.
  match goal with |- context [is_empty_db ?x] =>
    pose proof (is_empty_db_opens x) as H3; destruct (is_empty_db x) as [[b|e] s3]
  end; cbn [snd world] in H3 |- *; [|rewrite H3, H2; exact H1].
  destruct b; [|cbn; rewrite H3, H2; exact H1].
  unfold bind at 1.
  match goal with |- context [execute_file ?n ?x] =>
    pose proof (execute_file_opens x n) as H4; destruct (execute_file n x) as [[a|e] s4]
  end; unfold ret; cbn [snd world] in H4 |- *; rewrite H4, H3, H2; exact H1.
Qed.

Lemma conn_is_open_opens w k :
  conn_is_open w k = default false (opens w !! k).
Proof.
  unfold conn_is_open, opens. rewrite list_lookup_fmap.
  destruct (w_conns w !! k); reflexivity.
Qed.

Lemma opens_prefix_keeps w w' k :
  opens w `prefix_of` opens w' -> conn_is_open w k = true ->
  conn_is_open w' k = true.
Proof.
  intros Hp.
  rewrite !conn_is_open_opens.
  destruct (opens w !! k) as [b|] eqn:Hb; [|discriminate].
  rewrite (prefix_lookup_Some _ _ _ _ Hb Hp). auto.
Qed.

(** [__exit__] closes the connection of the handle and no other. *)
Lemma exit_keeps_others s j :
  connection (self s) <> Some j ->
  conn_is_open (world (snd (__exit__ s))) j = conn_is_open (world s) j.
Proof.
  intros Hj. unfold __exit__.
  unfold bind at 1, gets at 1.
  assert (Hcur : forall w c, w_conns (snd (Cursor_close c w)) = w_conns w).
  { intros w c. unfold Cursor_close, the_connection. mred. wsimpl.
    destruct (w_cursors w !! c) as [cc|]; [|reflexivity]. wsimpl.
    destruct (w_conns w !! cu_conn cc) as [kc|]; [destruct (c_open kc)|];
      reflexivity. }
  assert (Hcon : forall w k, k <> j ->
            conn_is_open (snd (Connection_close k w)) j = conn_is_open w j).
  { intros w k Hk. unfold Connection_close, conn_is_open. mred. wsimpl.
    destruct (w_conns w !! k); wsimpl; [|reflexivity].
    rewrite list_lookup_insert_ne by assumption. reflexivity. }
  destruct s as [[f script con cur] w]. cbn [self world cursor connection] in *.
  assert (Hmid : forall w1, conn_is_open w1 j = conn_is_open w j ->
    conn_is_open
      (world (snd ((con0 <~ gets (fun s => connection (self s)) ;;
                    match con0 with
                    | Some k => lift (Connection_close k) ;;; set_connection None
                    | None => ret tt
                    end)
                     {| self := {| db_file_name := f;
                                   init_script_file_name := script;
                                   connection := con; cursor := None |};
                        world := w1 |}))) j
    = conn_is_open w j).
  { intros w1 H1. unfold bind at 1, gets at 1. cbn [self connection].
    destruct con as [k|]; [|exact H1].
    unfold bind, lift, set_connection, modify. cbn [self world].
    pose proof (Hcon w1 k ltac:(congruence)) as H2.
    destruct (Connection_close k w1) as [[[]|e] w2]; cbn [snd world] in H2 |- *;
      congruence. }
  destruct cur as [c|].
  - unfold bind at 1. unfold bind at 1, lift at 1. cbn [self world].
    pose proof (Hcur w c) as H1.
    destruct (Cursor_close c w) as [[[]|e] w1]; cbn [snd] in H1.
    + unfold set_cursor, modify at 1. cbn [self world].
      apply Hmid. unfold conn_is_open. rewrite H1. reflexivity.
    + cbn. unfold conn_is_open. rewrite H1. reflexivity.
  - unfold bind at 1, ret at 1.
    destruct con as [k|].
    + unfold bind at 1, gets at 1. cbn [self connection].
      unfold bind, lift, set_connection, modify. cbn [self world].
      pose proof (Hcon w k ltac:(congruence)) as H2.
      destruct (Connection_close k w) as [[[]|e] w2]; cbn [snd world] in H2 |- *;
        congruence.
    + reflexivity.
Qed.

(** X16. [__enter__] on a handle that is already open abandons the
    connection it held without closing it: the handle gets a new
    connection, the old one stays open in the engine, and the [__exit__]
    that follows closes the new connection only, so the old one is still
    open when the handle is closed again. *)
Theorem second_enter_leaks_first_connection (s : state) (k : nat) :
  connection (self s) = Some k ->
  conn_is_open (world s) k = true ->
  db_file_name (self s) ∉ w_denied (world s) ->
  connection (self (snd (__enter__ s))) = Some (length (w_conns (world s))) /\
  k < length (w_conns (world s)) /\
  conn_is_open (world (snd (__enter__ s))) k = true /\
  handle_closed (snd (__exit__ (snd (__enter__ s)))) = true /\
  conn_is_open (world (snd (__exit__ (snd (__enter__ s))))) k = true.
Proof.
  intros Hk Ho Hd.
  assert (Hlt : k < length (w_conns (world s))).
  { unfold conn_is_open in Ho.
    destruct (w_conns (world s) !! k) eqn:E; [|discriminate].
    eapply lookup_lt_Some; eassumption. }
  pose proof (opens_prefix_keeps _ _ k (enter_opens s) Ho) as Ho'.
  destruct (enter_spec s Hd) as (w' & rs & E & Hl & _).
  rewrite E in Ho' |- *. cbn [snd self world entered connection] in Ho' |- *.
  split; [reflexivity|]. split; [exact Hlt|]. split; [exact Ho'|].
  split.
  { apply exit_closes. left.
    exact (proj1 (linked_handle_open {| self := entered s; world := w' |}
                    _ _ _ _ _ eq_refl eq_refl Hl)). }
  rewrite exit_keeps_others; [exact Ho'|].
  cbn [self entered connection]. intros H. injection H as H. lia.
Qed.

Lemma second_enter_leaks_first_connection_witness :
  connection (self (snd (__enter__ opened_state))) = Some 1 /\
  conn_is_open (world (snd (__exit__ (snd (__enter__ opened_state))))) 0 = true.
Proof.
  destruct (second_enter_leaks_first_connection opened_state 0)
    as (H1 & _ & _ & _ & H5).
  - vm_compute. reflexivity.
  - vm_compute. reflexivity.
  - apply (bool_decide_unpack _). vm_compute. exact I.
  - split; [|exact H5].
    etransitivity; [exact H1|]. vm_compute. reflexivity.
Defined.
